(** * Xray import client (src/xray.ts): shallow embedding and properties

    The class [Xray] of [src/xray.ts] is embedded as a record of its fields
    and one function per method.  Every method that mutates [this] returns
    the client after the call.  The two asynchronous methods ([auth] and
    [import]) additionally take the reply of the one HTTP call they await,
    and return the trace of what they did to the outside world (requests
    issued, diagnostics, secrets registered) together with the way their
    promise settles. *)

From Stdlib Require Import String List ZArith Bool Lia.
Import ListNotations.
Local Open Scope string_scope.
Local Set Warnings "-register-all".

(** ** JavaScript values

    The values that [JSON.parse] produces, plus [undefined].  An object is
    its list of own properties in insertion order (the order in which
    [JSON.stringify] prints them).  An array carries its elements and, like
    every JavaScript object, may be given named properties.  Numbers are
    integers here: the code looks at a number only to ask whether it is
    truthy. *)

Inductive value : Type :=
| JUndefined
| JNull
| JBool (b : bool)
| JNum (n : Z)
| JStr (s : string)
| JArr (elems : list value) (named : list (string * value))
| JObj (properties : list (string * value)).

Definition members : Type := list (string * value).

(** ToBoolean *)
Definition truthy (v : value) : bool :=
  match v with
  | JUndefined | JNull => false
  | JBool b => b
  | JNum n => negb (Z.eqb n 0)
  | JStr s => negb (String.eqb s "")
  | JArr _ _ | JObj _ => true
  end.

Definition is_object (v : value) : bool :=
  match v with
  | JArr _ _ | JObj _ => true
  | _ => false
  end.

(** Lookup and assignment in a list of named entries (the own properties
    of an object, the headers of a request).  Assigning to an existing
    name keeps its position, a new name goes to the end. *)
Section Entries.
Context {A : Type}.

Fixpoint lookup (k : string) (ps : list (string * A)) : option A :=
  match ps with
  | [] => None
  | (k', v) :: rest => if String.eqb k k' then Some v else lookup k rest
  end.

Fixpoint assign (k : string) (v : A) (ps : list (string * A)) : list (string * A) :=
  match ps with
  | [] => [(k, v)]
  | (k', v') :: rest =>
      if String.eqb k k' then (k, v) :: rest else (k', v') :: assign k v rest
  end.

End Entries.

Definition own (k : string) (ps : members) : value :=
  match lookup k ps with
  | Some v => v
  | None => JUndefined
  end.

(** ** Exceptions and completions *)

Inductive error : Type :=
| TypeError (msg : string)
| RequestError (msg : string).

Inductive completion (A : Type) : Type :=
| Normal (a : A)
| Throw (e : error).
Arguments Normal {A} a.
Arguments Throw {A} e.

(** [v[k]] for a name [k] that is neither an array index nor a property of
    a built-in prototype (every name this module uses is such a name):
    reading from [undefined] or [null] throws, a primitive has no such
    property. *)
Definition get_prop (v : value) (k : string) : completion value :=
  match v with
  | JUndefined | JNull => Throw (TypeError "Cannot read properties of undefined or null")
  | JObj ps | JArr _ ps => Normal (own k ps)
  | _ => Normal JUndefined
  end.

(** [v[k] = x] in strict code (a module's code, and a class body, is
    strict): only an object takes the property, assigning to a property
    of a primitive throws; the result is the object after the
    assignment. *)
Definition put_prop (v : value) (k : string) (x : value) : completion value :=
  match v with
  | JObj ps => Normal (JObj (assign k x ps))
  | JArr es ps => Normal (JArr es (assign k x ps))
  | JUndefined | JNull => Throw (TypeError "Cannot set properties of undefined or null")
  | _ => Throw (TypeError "Cannot create property on a primitive")
  end.

(** The own properties of a value (a primitive has none), and the entry
    found under a name. *)
Definition props (v : value) : members :=
  match v with
  | JObj ps | JArr _ ps => ps
  | _ => []
  end.

Definition entry (v : value) (k : string) : option value := lookup k (props v).

(** The total reading used in statements: [v.k], or [undefined] where
    there is nothing to read. *)
Definition peek (v : value) (k : string) : value := own k (props v).

(** ** Configuration records

    Both interfaces are imported from [./processor]; their fields are the
    ones [xray.ts] reads. *)

(** Modelled from the spec: the declaration of [XrayOptions] (the spec's
    DeploymentConfig) is in [processor.ts]. *)
Record XrayOptions : Type := {
  xrayServer : bool;
  xrayBaseUrl : string;
  username : string;
  password : string
}.

(** Modelled from the spec: the declaration of [XrayImportOptions] (the
    spec's ImportContext) is in [processor.ts].  [projectKey] and
    [testFormat] are strings; the five correlation fields are optional
    strings ([None] is [undefined]); the execution descriptor is an
    optional JSON object, given by its members. *)
Record XrayImportOptions : Type := {
  testFormat : string;
  projectKey : string;
  testExecKey : option string;
  testPlanKey : option string;
  testEnvironments : option string;
  revision : option string;
  fixVersion : option string;
  testExecutionJson : option members
}.

(** The test [if (s)] on an optional string: [undefined] and [''] are
    falsy.  [given s] is the string when the test passes. *)
Definition given (s : option string) : option string :=
  match s with
  | Some t => if String.eqb t "" then None else Some t
  | None => None
  end.

(** ** In-place updates of the descriptor

    [updateTestExecJson] mutates the object it is handed.  The descriptor
    is a JSON object, hence a tree: no object in it is reached through
    two paths, and the mutation of an object reached through a path is
    the replacement of the subtree at that path.  A computation on the
    descriptor threads its members and stops at the first exception,
    leaving what was already written. *)

Definition Merge (A : Type) : Type := members -> members * completion A.

Definition ret {A} (a : A) : Merge A := fun d => (d, Normal a).

Definition bind {A B} (m : Merge A) (f : A -> Merge B) : Merge B :=
  fun d =>
    match m d with
    | (d', Normal a) => f a d'
    | (d', Throw e) => (d', Throw e)
    end.

Notation "x <- m ;; k" := (bind m (fun x => k))
  (at level 61, m at next level, right associativity).
Notation "m ;;; k" := (bind m (fun _ => k))
  (at level 61, right associativity).

Definition bindc {A B} (c : completion A) (f : A -> completion B) : completion B :=
  match c with
  | Normal a => f a
  | Throw e => Throw e
  end.

(** [v[k1]...[kn]] *)
Fixpoint read_path (v : value) (path : list string) : completion value :=
  match path with
  | [] => Normal v
  | k :: rest => bindc (get_prop v k) (fun c => read_path c rest)
  end.

(** [v[k1]...[kn][k] = x]: the result is [v] once the object reached
    through [k1...kn] has taken the property. *)
Fixpoint write_path (v : value) (path : list string) (k : string) (x : value)
  : completion value :=
  match path with
  | [] => put_prop v k x
  | k1 :: rest =>
      bindc (get_prop v k1) (fun c =>
      bindc (write_path c rest k x) (fun c' =>
      put_prop v k1 c'))
  end.

(** [testExecJson[k1]...[kn]] *)
Definition read (path : list string) : Merge value :=
  fun d =>
    (d, match path with
        | [] => Normal (JObj d)
        | k1 :: rest => read_path (own k1 d) rest
        end).

(** [testExecJson[k1]...[kn][k] = x] *)
Definition write (path : list string) (k : string) (x : value) : Merge unit :=
  fun d =>
    match path with
    | [] => (assign k x d, Normal tt)
    | k1 :: rest =>
        match write_path (own k1 d) rest k x with
        | Normal c' => (assign k1 c' d, Normal tt)
        | Throw e => (d, Throw e)
        end
    end.

Definition when (b : bool) (m : Merge unit) : Merge unit :=
  if b then m else ret tt.

Definition when_given (s : option string) (f : string -> Merge unit) : Merge unit :=
  match given s with
  | Some t => f t
  | None => ret tt
  end.

(** [Xray.updateTestExecJson], lines 68-105. *)
Definition updateTestExecJson (o : XrayImportOptions) : Merge unit :=
  fields <- read ["fields"] ;;
  when (negb (truthy fields)) (write [] "fields" (JObj [])) ;;;
  project <- read ["fields"; "project"] ;;
  when (negb (truthy project)) (write ["fields"] "project" (JObj [])) ;;;
  write ["fields"; "project"] "key" (JStr (projectKey o)) ;;;
  xrayFields <- read ["xrayFields"] ;;
  when (negb (truthy xrayFields)) (write [] "xrayFields" (JObj [])) ;;;
  when_given (testExecKey o)
    (fun s => write ["xrayFields"] "testExecKey" (JStr s)) ;;;
  when_given (testPlanKey o)
    (fun s => write ["xrayFields"] "testPlanKey" (JStr s)) ;;;
  when_given (testEnvironments o)
    (fun s => write ["xrayFields"] "testEnvironments" (JStr s)) ;;;
  when_given (revision o)
    (fun s => write ["xrayFields"] "revision" (JStr s)) ;;;
  when_given (fixVersion o)
    (fun s => write ["xrayFields"] "fixVersion" (JStr s)).

(** The descriptor after the call, whether it returned or threw. *)
Definition merged (o : XrayImportOptions) (d : members) : members :=
  fst (updateTestExecJson o d).

(** ** The HTTP client (got)

    An options object lists the options it sets.  [extend] and the
    options of a single call are merged over the instance's defaults: an
    option that is given replaces the default, headers are merged name
    by name.  (got compares header names case-insensitively; they are
    compared as written here, this module uses two names only.) *)

Definition Buffer : Type := list Byte.byte.

(** Text built by library serializers, kept symbolic. *)
Inductive text : Type :=
| Verbatim (s : string)
| Decoded (data : Buffer)          (* data.toString('utf-8') *)
| Stringified (v : value)          (* JSON.stringify(v) *)
| Template (prefix : string) (hole : text).

(** [JSON.stringify(importResponse)], of the response object itself.
    got's response is Node's incoming message, which refers back to
    itself through its request and its socket: [JSON.stringify] throws
    on such an object ("Converting circular structure to JSON"). *)
Definition stringify_response : completion text :=
  Throw (TypeError "Converting circular structure to JSON").

(** One [form.append(name, content, {contentType, filename, filepath})]. *)
Record part : Type := {
  name : string;
  content : text;
  contentType : string;
  filename : string;
  filepath : string
}.

Inductive payload : Type :=
| Raw (data : Buffer)
| Form (parts : list part).

Module Got.

(** One entry of an options object. *)
Inductive setting : Type :=
| prefixUrl (url : string)
| username (s : string)
| password (s : string)
| headers (hs : list (string * string))
| responseType (s : string)
| timeout (ms : Z)
| retry (n : Z)
| http2 (b : bool)
| searchParams (ps : list (string * string))
| body (p : payload)
| json (v : value).

(** An options object: its entries, in the order they are written. *)
Definition options : Type := list setting.

(** [o] merged over [defaults]: what [o] gives comes after, and wins. *)
Definition merge (defaults o : options) : options := (defaults ++ o)%list.

(** [instance.extend(o)]: a new instance, given by its defaults. *)
Definition extend (instance o : options) : options := merge instance o.

(** The [got] export itself. *)
Definition got : options := [].

Definition merge_headers (defaults extra : list (string * string))
  : list (string * string) :=
  fold_left (fun acc h => assign (fst h) (snd h) acc) extra defaults.

(** The options in effect. *)
Definition prefixUrl_of (o : options) : option string :=
  fold_left (fun acc s => match s with prefixUrl u => Some u | _ => acc end) o None.

Definition searchParams_of (o : options) : option (list (string * string)) :=
  fold_left (fun acc s => match s with searchParams ps => Some ps | _ => acc end) o None.

Definition body_of (o : options) : option payload :=
  fold_left (fun acc s => match s with body p => Some p | _ => acc end) o None.

Definition headers_of (o : options) : list (string * string) :=
  fold_left (fun acc s => match s with headers hs => merge_headers acc hs | _ => acc end)
    o [].

End Got.

Inductive method : Type := GET | POST.

(** What a call does to the outside world. *)
Inductive event : Type :=
| Request (m : method) (url : string) (options : Got.options)
| CoreDebug (message : string)
| CoreWarning (message : text)
| CoreSetSecret (secret : string).

(** What awaiting a request gives: a response with its parsed body, or a
    rejection (network failure, status outside 2xx, unparsable body). *)
Inductive reply (B : Type) : Type :=
| Responded (body : B)
| Failed (e : error).
Arguments Responded {B} body.
Arguments Failed {B} e.

(** ** The class *)

Record Xray : Type := {
  xrayOptions : XrayOptions;
  xrayImportOptions : XrayImportOptions;
  xrayProtocol : string;
  searchParams : list (string * string);
  token : string;
  gotClient : Got.options
}.

Definition with_searchParams (x : Xray) (ps : list (string * string)) : Xray :=
  {| xrayOptions := xrayOptions x; xrayImportOptions := xrayImportOptions x;
     xrayProtocol := xrayProtocol x; searchParams := ps; token := token x;
     gotClient := gotClient x |}.

Definition with_gotClient (x : Xray) (g : Got.options) : Xray :=
  {| xrayOptions := xrayOptions x; xrayImportOptions := xrayImportOptions x;
     xrayProtocol := xrayProtocol x; searchParams := searchParams x;
     token := token x; gotClient := g |}.

Definition with_importOptions (x : Xray) (io : XrayImportOptions) : Xray :=
  {| xrayOptions := xrayOptions x; xrayImportOptions := io;
     xrayProtocol := xrayProtocol x; searchParams := searchParams x;
     token := token x; gotClient := gotClient x |}.

Definition with_testExecKey (io : XrayImportOptions) (k : option string)
  : XrayImportOptions :=
  {| testFormat := testFormat io; projectKey := projectKey io;
     testExecKey := k; testPlanKey := testPlanKey io;
     testEnvironments := testEnvironments io; revision := revision io;
     fixVersion := fixVersion io; testExecutionJson := testExecutionJson io |}.

Definition with_testExecutionJson (io : XrayImportOptions) (d : option members)
  : XrayImportOptions :=
  {| testFormat := testFormat io; projectKey := projectKey io;
     testExecKey := testExecKey io; testPlanKey := testPlanKey io;
     testEnvironments := testEnvironments io; revision := revision io;
     fixVersion := fixVersion io; testExecutionJson := d |}.

(** [if (s) elements.push([k, s])] *)
Definition push_given (k : string) (s : option string)
  (elements : list (string * string)) : list (string * string) :=
  match given s with
  | Some t => elements ++ [(k, t)]
  | None => elements
  end.

(** The array [elements] at the end of [createSearchParams]. *)
Definition elements (io : XrayImportOptions) : list (string * string) :=
  let elements := [("projectKey", projectKey io)] in
  let elements := push_given "testExecKey" (testExecKey io) elements in
  let elements := push_given "testPlanKey" (testPlanKey io) elements in
  let elements := push_given "testEnvironments" (testEnvironments io) elements in
  let elements := push_given "revision" (revision io) elements in
  let elements := push_given "fixVersion" (fixVersion io) elements in
  elements.

(** [Xray.createSearchParams], lines 42-66.  [new URLSearchParams(seq)]
    keeps the pairs of [seq] in order. *)
Definition createSearchParams (x : Xray) : Xray :=
  with_searchParams x (elements (xrayImportOptions x)).

(** [Xray.updateTestExecKey], lines 37-40. *)
Definition updateTestExecKey (x : Xray) (testExecKey : string) : Xray :=
  let x := with_importOptions x
             (with_testExecKey (xrayImportOptions x) (Some testExecKey)) in
  createSearchParams x.

(** The constructor, lines 12-35. *)
Definition constructor (xrayOptions : XrayOptions)
  (xrayImportOptions : XrayImportOptions) : Xray :=
  let xrayProtocol := "https" in
  let gotClient :=
    Got.extend Got.got
      [ Got.responseType "json"; Got.timeout 30000; Got.retry 2; Got.http2 true ] in
  let gotClient :=
    if xrayServer xrayOptions then
      Got.extend gotClient
        [ Got.prefixUrl
            (xrayProtocol ++ "://" ++ xrayBaseUrl xrayOptions ++ "/rest/raven/1.0");
          Got.username (username xrayOptions);
          Got.password (password xrayOptions) ]
    else
      Got.extend gotClient
        [ Got.prefixUrl (xrayProtocol ++ "://xray.cloud.xpand-it.com/api/v1") ] in
  createSearchParams
    {| xrayOptions := xrayOptions; xrayImportOptions := xrayImportOptions;
       xrayProtocol := xrayProtocol; searchParams := []; token := "";
       gotClient := gotClient |}.

(** [Xray.auth], lines 107-129.  [r] is what the awaited request gives;
    the body of the authentication response is typed as a string. *)
Definition auth (x : Xray) (r : reply string) : Xray * list event * completion unit :=
  if xrayServer (xrayOptions x) then
    let request :=
      Request GET "/api/2/myself"
        (Got.merge (gotClient x)
           [ Got.prefixUrl (xrayProtocol x ++ "://" ++ xrayBaseUrl (xrayOptions x)) ]) in
    match r with
    | Responded _ => (x, [request], Normal tt)
    | Failed e => (x, [request], Throw e)
    end
  else
    let request :=
      Request POST "/authenticate"
        (Got.merge (gotClient x)
           [ Got.json
               (JObj [ ("client_id", JStr (username (xrayOptions x)));
                       ("client_secret", JStr (password (xrayOptions x))) ]) ]) in
    match r with
    | Failed e => (x, [request], Throw e)
    | Responded token =>
        let x :=
          with_gotClient x
            (Got.extend (gotClient x)
               [ Got.headers [("Authorization", "Bearer " ++ token)] ]) in
        (x, [request; CoreSetSecret token], Normal tt)
    end.

(** The test of lines 138-141: a descriptor is there and [testExecKey]
    is falsy. *)
Inductive submission : Type :=
| Multipart (descriptor : members)
| RawBody.

Definition submission_of (io : XrayImportOptions) : submission :=
  match testExecutionJson io, given (testExecKey io) with
  | Some descriptor, None => Multipart descriptor
  | _, _ => RawBody
  end.

(** [format], lines 133-136. *)
Definition subpath (testFormat : string) : string :=
  if String.eqb testFormat "xray" then "" else testFormat.

Definition prefix_of (g : Got.options) : string :=
  match Got.prefixUrl_of g with
  | Some p => p
  | None => ""
  end.

Definition mismatch : string := "🔥 Response did not match expected format: ".

(** [Xray.import], lines 131-220.  [r] is what the awaited POST gives. *)
Definition import (x : Xray) (data : Buffer) (r : reply value)
  : Xray * list event * completion value :=
  let io := xrayImportOptions x in
  let format := subpath (testFormat io) in
  match submission_of io with
  | Multipart descriptor =>
      let (descriptor, updated) := updateTestExecJson io descriptor in
      let x := with_importOptions x (with_testExecutionJson io (Some descriptor)) in
      match updated with
      | Throw e => (x, [], Throw e)
      | Normal _ =>
          let form :=
            [ {| name := "info"; content := Stringified (JObj descriptor);
                 contentType := "application/json"; filename := "info.json";
                 filepath := "info.json" |};
              {| name := "results"; content := Decoded data;
                 contentType := "text/xml"; filename := "test.xml";
                 filepath := "test.xml" |};
              {| name := "testInfo";
                 content :=
                   Stringified
                     (JObj [("fields",
                             JObj [("project",
                                    JObj [("key", JStr (projectKey io))])])]);
                 contentType := "application/json"; filename := "testInfo.json";
                 filepath := "testInfo.json" |} ] in
          let endpoint := "/import/execution/" ++ format ++ "/multipart" in
          let trace :=
            [ CoreDebug ("Using multipart endpoint: " ++ prefix_of (gotClient x) ++ endpoint);
              Request POST endpoint
                (Got.merge (gotClient x) [ Got.body (Form form) ]) ] in
          match r with
          | Failed e => (x, trace, Throw e)
          | Responded body =>
              match get_prop body "key" with
              | Normal key => (x, trace, Normal key)
              | Throw _ =>
                  (x, (trace ++ [CoreWarning (Template mismatch (Stringified body))])%list,
                   Normal (JStr ""))
              end
          end
      end
  | RawBody =>
      let endpoint := "/import/execution/" ++ format in
      let trace :=
        [ CoreDebug ("Using endpoint: " ++ prefix_of (gotClient x) ++ endpoint);
          Request POST endpoint
            (Got.merge (gotClient x)
               [ Got.searchParams (searchParams x);
                 Got.headers [("Content-Type", "text/xml")];
                 Got.body (Raw data);
                 Got.timeout 60000 ]) ] in
      match r with
      | Failed e => (x, trace, Throw e)
      | Responded body =>
          match get_prop body "key" with
          | Normal key => (x, trace, Normal key)
          | Throw _ =>
              (* JSON.stringify(importResponse.body || importResponse),
                 inside the handler: what it throws rejects [import] *)
              match (if truthy body then Normal (Stringified body)
                     else stringify_response) with
              | Normal message =>
                  (x, (trace ++ [CoreWarning (Template mismatch message)])%list,
                   Normal (JStr ""))
              | Throw e => (x, trace, Throw e)
              end
          end
      end
  end.

(** ** Sequences of calls on one client *)

Inductive call : Type :=
| Auth (r : reply string)
| Import (data : Buffer) (r : reply value)
| UpdateTestExecKey (testExecKey : string).

Definition is_auth (c : call) : bool :=
  match c with
  | Auth _ => true
  | _ => false
  end.

(** One call: the client after it, and what it did. *)
Definition step (x : Xray) (c : call) : Xray * list event :=
  match c with
  | Auth r => let '(x', trace, _) := auth x r in (x', trace)
  | Import data r => let '(x', trace, _) := import x data r in (x', trace)
  | UpdateTestExecKey k => (updateTestExecKey x k, [])
  end.

Fixpoint run (x : Xray) (cs : list call) : Xray * list event :=
  match cs with
  | [] => (x, [])
  | c :: rest =>
      let (x', trace) := step x c in
      let (x'', trace') := run x' rest in
      (x'', (trace ++ trace')%list)
  end.

(** ** Closed forms of [updateTestExecJson], for the proofs *)

(** The value [v || {}] that a guard [if (!v) v = {}] leaves behind. *)
Definition ensured (v : value) : value := if truthy v then v else JObj [].

(** Lines 71-77 on the value held at [fields]. *)
Definition project_part (pk : string) (fields : value) : completion value :=
  bindc (get_prop (ensured fields) "project") (fun project =>
  bindc (put_prop (ensured project) "key" (JStr pk)) (fun project' =>
  put_prop (ensured fields) "project" project')).

(** The correlation fields that pass their guard, in source order. *)
Definition given_entry (k : string) (s : option string) : list (string * string) :=
  match given s with
  | Some t => [(k, t)]
  | None => []
  end.

Definition correlation (o : XrayImportOptions) : list (string * string) :=
  given_entry "testExecKey" (testExecKey o) ++
  given_entry "testPlanKey" (testPlanKey o) ++
  given_entry "testEnvironments" (testEnvironments o) ++
  given_entry "revision" (revision o) ++
  given_entry "fixVersion" (fixVersion o).

Fixpoint put_all (es : list (string * string)) (v : value) : completion value :=
  match es with
  | [] => Normal v
  | (k, s) :: rest => bindc (put_prop v k (JStr s)) (put_all rest)
  end.

(** Lines 79-104 on the value held at [xrayFields]. *)
Definition xray_part (o : XrayImportOptions) (xrayFields : value) : completion value :=
  put_all (correlation o) (ensured xrayFields).

Definition put_given (k : string) (s : option string) : Merge unit :=
  when_given s (fun t => write ["xrayFields"] k (JStr t)).

Definition xray_spec (es : list (string * string)) (d : members)
  : members * completion unit :=
  match put_all es (own "xrayFields" d) with
  | Normal x => (assign "xrayFields" x d, Normal tt)
  | Throw e => (d, Throw e)
  end.

(** ** Vocabulary of the statements *)

(** A value that a guard [if (!v)] replaces, or an object. *)
Definition absent_or_object (v : value) : bool := negb (truthy v) || is_object v.

(** The elements of an array (no other value has any). *)
Definition items (v : value) : list value :=
  match v with
  | JArr es _ => es
  | _ => []
  end.

(** [fields] and [fields.project] are objects and [fields.project.key]
    is the project key, in the descriptor [d]. *)
Definition project_key_forced (o : XrayImportOptions) (d : members) : Prop :=
  is_object (own "fields" d) = true /\
  is_object (peek (own "fields" d) "project") = true /\
  peek (peek (own "fields" d) "project") "key" = JStr (projectKey o).

(** What the guards [if (!v) v = {}] and the property writes may make
    of a container [v]: an object stays an object, an array keeps its
    elements, a falsy value is left as it is or replaced by an object,
    and every other value is left as it is. *)
Definition kept (v v' : value) : Prop :=
  match v with
  | JObj _ => exists ps, v' = JObj ps
  | JArr es _ => exists ps, v' = JArr es ps
  | _ => v' = v \/ (truthy v = false /\ exists ps, v' = JObj ps)
  end.

(** No correlation field of the context passes its guard. *)
Definition no_correlation (o : XrayImportOptions) : Prop :=
  given (testExecKey o) = None /\ given (testPlanKey o) = None /\
  given (testEnvironments o) = None /\ given (revision o) = None /\
  given (fixVersion o) = None.

(** The frame of [updateTestExecJson] in the spec's words: only
    [fields.project.key] and the [xrayFields] entries whose context field
    is present are modified, every other key is left unchanged.  So the
    member [xrayFields] itself is unchanged when no context field is
    present, as is every member other than [fields]. *)
Definition modifies_only_listed (o : XrayImportOptions) (d : members) : Prop :=
  let d' := merged o d in
  (forall k, k <> "fields" -> (k = "xrayFields" -> no_correlation o) ->
     lookup k d' = lookup k d) /\
  (forall k, k <> "project" ->
     entry (own "fields" d') k = entry (own "fields" d) k) /\
  (forall k, k <> "key" ->
     entry (peek (own "fields" d') "project") k =
     entry (peek (own "fields" d) "project") k) /\
  (forall k,
     (k = "testExecKey" -> given (testExecKey o) = None) ->
     (k = "testPlanKey" -> given (testPlanKey o) = None) ->
     (k = "testEnvironments" -> given (testEnvironments o) = None) ->
     (k = "revision" -> given (revision o) = None) ->
     (k = "fixVersion" -> given (fixVersion o) = None) ->
     entry (own "xrayFields" d') k = entry (own "xrayFields" d) k).

(** An optional string that fails the test [if (s)]. *)
Definition absent (s : option string) : Prop := s = None \/ s = Some "".

Definition value_or_empty (s : option string) : string :=
  match s with
  | Some t => t
  | None => ""
  end.

(** The spec's [buildQueryParameters], following its words: [projectKey]
    always, then the five fields in their fixed order, each only if
    non-empty. *)
Definition buildQueryParameters (io : XrayImportOptions) : list (string * string) :=
  ("projectKey", projectKey io) ::
  filter (fun e => negb (String.eqb (snd e) ""))
    [ ("testExecKey", value_or_empty (testExecKey io));
      ("testPlanKey", value_or_empty (testPlanKey io));
      ("testEnvironments", value_or_empty (testEnvironments io));
      ("revision", value_or_empty (revision io));
      ("fixVersion", value_or_empty (fixVersion io)) ].

(** The query parameters as the spec describes them, with its last
    clause read for every entry. *)
Definition no_empty_parameter (io : XrayImportOptions) : Prop :=
  elements io = buildQueryParameters io /\
  forall k v, In (k, v) (elements io) -> v <> "".

(** The query parameters after [updateTestExecKey x k]: rebuilt from the
    updated options, carrying [k] and no other [testExecKey]. *)
Definition key_regenerated (x : Xray) (k : string) : Prop :=
  let x' := updateTestExecKey x k in
  xrayImportOptions x' = with_testExecKey (xrayImportOptions x) (Some k) /\
  searchParams x' = elements (xrayImportOptions x') /\
  In ("testExecKey", k) (searchParams x') /\
  (forall v, In ("testExecKey", v) (searchParams x') -> v = k).

Definition trace_of {A} (r : Xray * list event * completion A) : list event :=
  snd (fst r).

Definition client_of {A} (r : Xray * list event * completion A) : Xray :=
  fst (fst r).

Definition result_of {A} (r : Xray * list event * completion A) : completion A :=
  snd r.

(** The [Authorization] entry of the [headers] option.  (The [username]
    and [password] options are another matter: got turns them into a
    Basic authorization of its own when it sends the request.) *)
Definition authorization (options : Got.options) : option string :=
  lookup "Authorization" (Got.headers_of options).

(** The options of the two requests [import] may issue. *)
Definition multipart_options (x : Xray) (d : members) (data : Buffer) : Got.options :=
  Got.merge (gotClient x)
    [ Got.body
        (Form
           [ {| name := "info"; content := Stringified (JObj d);
                contentType := "application/json"; filename := "info.json";
                filepath := "info.json" |};
             {| name := "results"; content := Decoded data;
                contentType := "text/xml"; filename := "test.xml";
                filepath := "test.xml" |};
             {| name := "testInfo";
                content :=
                  Stringified
                    (JObj [("fields",
                            JObj [("project",
                                   JObj [("key",
                                          JStr (projectKey (xrayImportOptions x)))])])]);
                contentType := "application/json"; filename := "testInfo.json";
                filepath := "testInfo.json" |} ]) ].

Definition raw_options (x : Xray) (data : Buffer) : Got.options :=
  Got.merge (gotClient x)
    [ Got.searchParams (searchParams x);
      Got.headers [("Content-Type", "text/xml")];
      Got.body (Raw data);
      Got.timeout 60000 ].

Definition sends_form (options : Got.options) : Prop :=
  exists parts, Got.body_of options = Some (Form parts).

Definition sends_raw (options : Got.options) : Prop :=
  exists data, Got.body_of options = Some (Raw data).

(** What holds of every client built by the constructor and used through
    its methods: the instance defaults carry no query parameters, and
    [searchParams] is what [createSearchParams] builds from the options. *)
Definition consistent (x : Xray) : Prop :=
  Got.searchParams_of (gotClient x) = None /\
  searchParams x = elements (xrayImportOptions x).

(** ** Sample configurations *)

Definition cloud : XrayOptions :=
  {| xrayServer := false; xrayBaseUrl := ""; username := "client";
     password := "secret" |}.

(** JUnit results for project PRJ under plan PRJ-7, no descriptor. *)
Definition junit_plan : XrayImportOptions :=
  {| testFormat := "junit"; projectKey := "PRJ"; testExecKey := None;
     testPlanKey := Some "PRJ-7"; testEnvironments := None; revision := None;
     fixVersion := Some "1.0"; testExecutionJson := None |}.

(** The same with an execution key already known. *)
Definition junit_exec : XrayImportOptions :=
  with_testExecKey junit_plan (Some "PRJ-41").

(** A descriptor naming another project, with a stale revision. *)
Definition other_project : members :=
  [ ("fields",
     JObj [ ("summary", JStr "Nightly run");
            ("project", JObj [("key", JStr "OTHER"); ("id", JNum 10000)]) ]);
    ("xrayFields", JObj [("revision", JStr "r41"); ("testPlanKey", JStr "OLD-1")]) ].

Definition junit_descriptor : XrayImportOptions :=
  with_testExecutionJson junit_plan (Some other_project).

(** A descriptor whose [fields] is a string. *)
Definition fields_is_text : members := [("fields", JStr "abc")].

(** No project key. *)
Definition no_project : XrayImportOptions :=
  {| testFormat := "junit"; projectKey := ""; testExecKey := None;
     testPlanKey := None; testEnvironments := None; revision := None;
     fixVersion := None; testExecutionJson := None |}.

(** Project PRJ and nothing else. *)
Definition junit_only : XrayImportOptions :=
  {| testFormat := "junit"; projectKey := "PRJ"; testExecKey := None;
     testPlanKey := None; testEnvironments := None; revision := None;
     fixVersion := None; testExecutionJson := None |}.

(** Descriptors with a falsy [xrayFields], and without one. *)
Definition xrayFields_is_zero : members := [("xrayFields", JNum 0)].

Definition summary_only : members :=
  [("fields", JObj [("summary", JStr "Nightly run")])].

(** A descriptor and an execution key. *)
Definition junit_both : XrayImportOptions :=
  with_testExecKey junit_descriptor (Some "PRJ-41").

(** The native format, without and with a descriptor. *)
Definition xray_plan : XrayImportOptions :=
  {| testFormat := "xray"; projectKey := "PRJ"; testExecKey := None;
     testPlanKey := Some "PRJ-7"; testEnvironments := None; revision := None;
     fixVersion := None; testExecutionJson := None |}.

Definition xray_descriptor : XrayImportOptions :=
  with_testExecutionJson xray_plan (Some summary_only).

Definition results_xml : Buffer :=
  [Byte.x3c; Byte.x74; Byte.x2f; Byte.x3e].

Definition created : reply value := Responded (JObj [("key", JStr "EXEC-123")]).

(** ** Vocabulary of the further properties *)

(** More of the options in effect. *)
Definition username_of (o : Got.options) : option string :=
  fold_left (fun acc s => match s with Got.username u => Some u | _ => acc end) o None.

Definition password_of (o : Got.options) : option string :=
  fold_left (fun acc s => match s with Got.password p => Some p | _ => acc end) o None.

Definition responseType_of (o : Got.options) : option string :=
  fold_left (fun acc s => match s with Got.responseType t => Some t | _ => acc end) o None.

Definition timeout_of (o : Got.options) : option Z :=
  fold_left (fun acc s => match s with Got.timeout ms => Some ms | _ => acc end) o None.

Definition retry_of (o : Got.options) : option Z :=
  fold_left (fun acc s => match s with Got.retry n => Some n | _ => acc end) o None.

Definition http2_of (o : Got.options) : option bool :=
  fold_left (fun acc s => match s with Got.http2 b => Some b | _ => acc end) o None.

(** The requests among the events of a trace. *)
Definition is_request (e : event) : bool :=
  match e with
  | Request _ _ _ => true
  | _ => false
  end.

Definition requests (t : list event) : list event := filter is_request t.

(** An [auth] call whose request is answered. *)
Definition gets_token (c : call) : bool :=
  match c with
  | Auth (Responded _) => true
  | _ => false
  end.

(** The names of a list of entries, in order. *)
Definition names {A} (ps : list (string * A)) : list string := map fst ps.

(** The descriptors on which [updateTestExecJson] returns: [fields],
    [fields.project] and [xrayFields] are each absent, falsy or an
    object, the last one only if there is a correlation field to write
    into it. *)
Definition mergeable (o : XrayImportOptions) (d : members) : bool :=
  absent_or_object (own "fields" d)
  && absent_or_object (peek (own "fields" d) "project")
  && (absent_or_object (own "xrayFields" d)
      || match correlation o with [] => true | _ => false end).

(** The defaults the constructor gives every instance. *)
Definition transport_defaults (o : Got.options) : Prop :=
  responseType_of o = Some "json" /\
  timeout_of o = Some 30000%Z /\
  retry_of o = Some 2%Z /\
  http2_of o = Some true /\
  Got.body_of o = None.


Definition xrayFields_is_text : members :=
  [ ("fields", JObj [("project", JObj [("key", JStr "OTHER")])]);
    ("xrayFields", JStr "abc") ].

(** The warning, if any, that [import] adds for a reply, and what it
    resolves to or rejects with once its request is issued.  [whole]
    says whether a falsy body is replaced by the whole response in the
    message, as the raw path does: stringifying that throws. *)
Definition mismatch_warning (whole : bool) (r : reply value) : list event :=
  match r with
  | Responded body =>
      match get_prop body "key" with
      | Normal _ => []
      | Throw _ =>
          if whole && negb (truthy body) then []
          else [CoreWarning (Template mismatch (Stringified body))]
      end
  | Failed _ => []
  end.

Definition settled (whole : bool) (r : reply value) : completion value :=
  match r with
  | Responded body =>
      match get_prop body "key" with
      | Normal key => Normal key
      | Throw _ =>
          if whole && negb (truthy body)
          then Throw (TypeError "Converting circular structure to JSON")
          else Normal (JStr "")
      end
  | Failed e => Throw e
  end.

(** [extends_by added before after]: [after] is [before], in the same
    order, followed by names taken from [added]. *)
Definition extends_by (added before after : list string) : Prop :=
  exists more, after = (before ++ more)%list /\ incl more added.

(** * Proofs *)

(** ** Named entries *)

Section EntriesFacts.
Context {A : Type}.
Implicit Types (k : string) (v w : A) (ps : list (string * A)).

Lemma lookup_assign_same k v ps : lookup k (assign k v ps) = Some v.
Proof.
  induction ps as [|[k' v'] ps IH]; simpl.
  - now rewrite String.eqb_refl.
  - destruct (String.eqb k k') eqn:E; simpl.
    + now rewrite String.eqb_refl.
    + now rewrite E.
Qed.

Lemma lookup_assign_other k k' v ps :
  k' <> k -> lookup k' (assign k v ps) = lookup k' ps.
Proof.
  intros Hne. induction ps as [|[k0 v0] ps IH]; simpl.
  - apply String.eqb_neq in Hne. now rewrite Hne.
  - destruct (String.eqb k k0) eqn:E; simpl.
    + apply String.eqb_eq in E. subst k0.
      apply String.eqb_neq in Hne. now rewrite Hne.
    + now rewrite IH.
Qed.

Lemma assign_assign k v w ps : assign k v (assign k w ps) = assign k v ps.
Proof.
  induction ps as [|[k' v'] ps IH]; simpl.
  - now rewrite String.eqb_refl.
  - destruct (String.eqb k k') eqn:E; simpl.
    + now rewrite String.eqb_refl.
    + now rewrite E, IH.
Qed.

Lemma assign_lookup k v ps : lookup k ps = Some v -> assign k v ps = ps.
Proof.
  induction ps as [|[k' v'] ps IH]; simpl; [discriminate|].
  destruct (String.eqb k k') eqn:E.
  - apply String.eqb_eq in E. now intros [= ->]; subst.
  - intros H. now rewrite IH.
Qed.

End EntriesFacts.

Lemma own_assign_same k v ps : own k (assign k v ps) = v.
Proof. unfold own. now rewrite lookup_assign_same. Qed.

Lemma own_assign_other k k' v ps : k' <> k -> own k' (assign k v ps) = own k' ps.
Proof. intros H. unfold own. now rewrite lookup_assign_other. Qed.

Lemma assign_own k ps : truthy (own k ps) = true -> assign k (own k ps) ps = ps.
Proof.
  unfold own. destruct (lookup k ps) eqn:E; [|discriminate].
  intros _. now apply assign_lookup.
Qed.

(** ** [updateTestExecJson] in closed form *)

Lemma put_given_run k s d :
  truthy (own "xrayFields" d) = true ->
  put_given k s d =
  match put_all (given_entry k s) (own "xrayFields" d) with
  | Normal x => (assign "xrayFields" x d, Normal tt)
  | Throw e => (d, Throw e)
  end.
Proof.
  intros Hx. unfold put_given, when_given, given_entry.
  destruct (given s) as [t|]; simpl.
  - unfold bindc. destruct (put_prop (own "xrayFields" d) k (JStr t)); reflexivity.
  - unfold ret. now rewrite assign_own.
Qed.

Lemma put_prop_truthy v k x v' : put_prop v k x = Normal v' -> truthy v' = true.
Proof. destruct v; simpl; intros [= <-]; reflexivity. Qed.

Lemma put_all_truthy es v v' :
  truthy v = true -> put_all es v = Normal v' -> truthy v' = true.
Proof.
  revert v. induction es as [|[k s] es IH]; intros v Hv; simpl.
  - now intros [= <-].
  - destruct (put_prop v k (JStr s)) eqn:E; simpl; [|discriminate].
    apply IH. eapply put_prop_truthy; eauto.
Qed.

Lemma project_stage_run pk d (k : Merge unit) :
  (fields <- read ["fields"] ;;
   when (negb (truthy fields)) (write [] "fields" (JObj [])) ;;;
   project <- read ["fields"; "project"] ;;
   when (negb (truthy project)) (write ["fields"] "project" (JObj [])) ;;;
   write ["fields"; "project"] "key" (JStr pk) ;;;
   k) d =
  match project_part pk (own "fields" d) with
  | Normal f => k (assign "fields" f d)
  | Throw e => (d, Throw e)
  end.
Proof.
  unfold bind, read, project_part, ensured. cbn [read_path].
  destruct (truthy (own "fields" d)) eqn:Hf; cbn [negb when].
  - (* fields is truthy: left as it is *)
    unfold ret.
    destruct (own "fields" d) as [| |b|n|s|es ps|ps] eqn:Ef; try discriminate Hf;
      cbn [get_prop bindc put_prop truthy negb when ret].
    1-3: unfold write; cbn [write_path]; rewrite Ef; reflexivity.
    all: destruct (truthy (own "project" ps)) eqn:Hp; cbn [negb when ret].
    all: unfold write; cbn [write_path get_prop bindc]; rewrite Ef;
      cbn [get_prop bindc put_prop].
    1,3: destruct (put_prop (own "project" ps) "key" (JStr pk)); reflexivity.
    all: rewrite !own_assign_same; cbn [get_prop bindc put_prop assign];
      rewrite !own_assign_same; cbn [put_prop bindc assign];
      now rewrite !assign_assign.
  - (* fields is falsy: replaced by a fresh object *)
    unfold write. cbn [write_path]. rewrite !own_assign_same.
    cbn [get_prop bindc own lookup truthy negb when put_prop assign].
    rewrite !own_assign_same. cbn [get_prop bindc put_prop own lookup assign].
    rewrite !own_assign_same. cbn. now rewrite !assign_assign.
Qed.

Lemma put_prop_object v k x : is_object v = true ->
  exists v', put_prop v k x = Normal v' /\ is_object v' = true.
Proof. destruct v; try discriminate; intros _; simpl; eauto. Qed.

Lemma put_prop_is_object v k x v' : put_prop v k x = Normal v' -> is_object v' = true.
Proof. destruct v; simpl; intros [= <-]; reflexivity. Qed.

Lemma put_all_object es v : is_object v = true ->
  exists v', put_all es v = Normal v' /\ is_object v' = true.
Proof.
  revert v. induction es as [|[k s] es IH]; intros v Hv; simpl; eauto.
  destruct (put_prop_object v k (JStr s) Hv) as (v1 & -> & H1). simpl. auto.
Qed.

Lemma is_object_truthy v : is_object v = true -> truthy v = true.
Proof. destruct v; simpl; auto; discriminate. Qed.

Lemma put_given_bind k s es (m : Merge unit) :
  (forall d, truthy (own "xrayFields" d) = true -> m d = xray_spec es d) ->
  forall d, truthy (own "xrayFields" d) = true ->
    (put_given k s ;;; m) d = xray_spec (given_entry k s ++ es) d.
Proof.
  intros Hm d Hd. unfold bind. rewrite put_given_run by assumption.
  unfold xray_spec, given_entry. destruct (given s) as [t|]; simpl.
  - destruct (put_prop (own "xrayFields" d) k (JStr t)) as [x1|e] eqn:E1; simpl; auto.
    pose proof (put_prop_is_object _ _ _ _ E1) as Ho.
    rewrite Hm by (rewrite own_assign_same; now apply is_object_truthy).
    unfold xray_spec. rewrite own_assign_same.
    destruct (put_all_object es x1 Ho) as (x2 & -> & _).
    now rewrite assign_assign.
  - rewrite assign_own by assumption. now apply Hm.
Qed.

Lemma put_given_last k s d :
  truthy (own "xrayFields" d) = true ->
  put_given k s d = xray_spec (given_entry k s) d.
Proof. apply put_given_run. Qed.

Lemma ensured_truthy v : truthy (ensured v) = true.
Proof. unfold ensured. destruct (truthy v) eqn:E; auto. Qed.

Lemma xray_stage_run o d :
  (xrayFields <- read ["xrayFields"] ;;
   when (negb (truthy xrayFields)) (write [] "xrayFields" (JObj [])) ;;;
   put_given "testExecKey" (testExecKey o) ;;;
   put_given "testPlanKey" (testPlanKey o) ;;;
   put_given "testEnvironments" (testEnvironments o) ;;;
   put_given "revision" (revision o) ;;;
   put_given "fixVersion" (fixVersion o)) d =
  match xray_part o (own "xrayFields" d) with
  | Normal x => (assign "xrayFields" x d, Normal tt)
  | Throw e => (d, Throw e)
  end.
Proof.
  assert (Hchain : forall d', truthy (own "xrayFields" d') = true ->
    (put_given "testExecKey" (testExecKey o) ;;;
     put_given "testPlanKey" (testPlanKey o) ;;;
     put_given "testEnvironments" (testEnvironments o) ;;;
     put_given "revision" (revision o) ;;;
     put_given "fixVersion" (fixVersion o)) d' = xray_spec (correlation o) d').
  { unfold correlation.
    repeat (apply put_given_bind). apply put_given_last. }
  unfold bind at 1. unfold read at 1. cbn [read_path].
  unfold bind at 1. unfold xray_part, ensured.
  destruct (truthy (own "xrayFields" d)) eqn:Hx; cbn [negb when ret].
  - rewrite Hchain by assumption. reflexivity.
  - unfold write at 1. rewrite Hchain by now rewrite own_assign_same.
    unfold xray_spec. rewrite own_assign_same.
    destruct (put_all_object (correlation o) (JObj []) eq_refl) as (x & -> & _).
    now rewrite assign_assign.
Qed.

Theorem updateTestExecJson_run o d :
  updateTestExecJson o d =
  match project_part (projectKey o) (own "fields" d) with
  | Throw e => (d, Throw e)
  | Normal f =>
      let d1 := assign "fields" f d in
      match xray_part o (own "xrayFields" d) with
      | Throw e => (d1, Throw e)
      | Normal x => (assign "xrayFields" x d1, Normal tt)
      end
  end.
Proof.
  unfold updateTestExecJson. rewrite project_stage_run.
  destruct (project_part (projectKey o) (own "fields" d)) as [f|e]; [|reflexivity].
  cbv zeta.
  change (when_given ?s (fun t => write ["xrayFields"] ?k (JStr t))) with (put_given k s).
  rewrite xray_stage_run.
  rewrite own_assign_other by discriminate. reflexivity.
Qed.

(** ** Facts about the two parts *)

Lemma put_prop_props v k x v' :
  put_prop v k x = Normal v' -> props v' = assign k x (props v).
Proof. destruct v; simpl; intros [= <-]; reflexivity. Qed.

Lemma put_prop_fixed v k x :
  is_object v = true -> lookup k (props v) = Some x -> put_prop v k x = Normal v.
Proof.
  destruct v; try discriminate; intros _ H; simpl in *; now rewrite assign_lookup.
Qed.

Lemma project_part_object pk f f' :
  project_part pk f = Normal f' -> is_object f' = true.
Proof.
  unfold project_part.
  destruct (get_prop (ensured f) "project") as [p|]; [|discriminate]. simpl.
  destruct (put_prop (ensured p) "key" (JStr pk)) as [p'|]; [|discriminate]. simpl.
  apply put_prop_is_object.
Qed.

Lemma ensured_object v : is_object v = true -> ensured v = v.
Proof. intros H. unfold ensured. now rewrite is_object_truthy. Qed.

Lemma get_prop_object v k : is_object v = true -> get_prop v k = Normal (peek v k).
Proof. destruct v; try discriminate; reflexivity. Qed.

(** What the project part leaves behind: [fields] is an object whose
    [project] is an object whose [key] is the project key. *)
Lemma project_part_result pk f f' :
  project_part pk f = Normal f' ->
  is_object f' = true /\
  is_object (peek f' "project") = true /\
  peek (peek f' "project") "key" = JStr pk /\
  (forall k, k <> "project" -> entry f' k = entry (ensured f) k) /\
  (forall k, k <> "key" ->
     entry (peek f' "project") k = entry (ensured (peek (ensured f) "project")) k).
Proof.
  intros H. pose proof (project_part_object _ _ _ H) as Hobj.
  unfold project_part in H.
  destruct (get_prop (ensured f) "project") as [p|] eqn:Ep; [|discriminate].
  simpl in H.
  destruct (put_prop (ensured p) "key" (JStr pk)) as [p'|] eqn:Ek; [|discriminate].
  simpl in H.
  assert (Hp : p = peek (ensured f) "project").
  { destruct (ensured f); simpl in Ep; try discriminate;
      injection Ep as <-; reflexivity. }
  pose proof (put_prop_props _ _ _ _ H) as Hf'.
  pose proof (put_prop_props _ _ _ _ Ek) as Hp'.
  assert (Hpk : peek f' "project" = p').
  { unfold peek. rewrite Hf'. apply own_assign_same. }
  split; [assumption|]. rewrite Hpk. repeat split.
  - eapply put_prop_is_object; eauto.
  - unfold peek. rewrite Hp'. apply own_assign_same.
  - intros k Hk. unfold entry. rewrite Hf'. now apply lookup_assign_other.
  - intros k Hk. unfold entry. rewrite Hp', <- Hp. now apply lookup_assign_other.
Qed.

Lemma project_part_idempotent pk f f' :
  project_part pk f = Normal f' -> project_part pk f' = Normal f'.
Proof.
  intros H. destruct (project_part_result _ _ _ H) as (Hf & Hp & Hk & _).
  unfold project_part. rewrite (ensured_object _ Hf), (get_prop_object _ _ Hf).
  simpl. rewrite (ensured_object _ Hp).
  rewrite put_prop_fixed; auto.
  - simpl. apply put_prop_fixed; auto.
    unfold peek, own in Hp |- *. destruct (lookup "project" (props f')); [reflexivity|discriminate].
  - unfold peek at 1, own in Hk.
    destruct (lookup "key" (props (peek f' "project"))); [congruence|discriminate].
Qed.

Lemma put_all_is_object es v v' :
  is_object v = true -> put_all es v = Normal v' -> is_object v' = true.
Proof.
  intros Hv H. destruct (put_all_object es v Hv) as (w & Hw & Ho). congruence.
Qed.

Lemma put_all_other es v v' k :
  put_all es v = Normal v' -> ~ In k (map fst es) -> entry v' k = entry v k.
Proof.
  revert v. induction es as [|[k0 s0] es IH]; intros v H Hk; simpl in *.
  - now injection H as <-.
  - destruct (put_prop v k0 (JStr s0)) as [v1|] eqn:E1; [|discriminate]. simpl in H.
    rewrite (IH v1 H) by tauto.
    unfold entry. rewrite (put_prop_props _ _ _ _ E1).
    apply lookup_assign_other. intros ->. tauto.
Qed.

Lemma put_all_in es v v' k s :
  NoDup (map fst es) -> put_all es v = Normal v' -> In (k, s) es ->
  entry v' k = Some (JStr s).
Proof.
  revert v. induction es as [|[k0 s0] es IH]; intros v Hnd H Hin; simpl in *.
  - contradiction.
  - destruct (put_prop v k0 (JStr s0)) as [v1|] eqn:E1; [|discriminate]. simpl in H.
    inversion Hnd as [|? ? Hnotin Hnd']; subst.
    destruct Hin as [[= -> ->]|Hin].
    + rewrite (put_all_other _ _ _ _ H Hnotin).
      unfold entry. rewrite (put_prop_props _ _ _ _ E1). apply lookup_assign_same.
    + eapply IH; eauto.
Qed.

Lemma put_all_fixed es v :
  is_object v = true ->
  (forall k s, In (k, s) es -> entry v k = Some (JStr s)) ->
  put_all es v = Normal v.
Proof.
  intros Hv. induction es as [|[k0 s0] es IH]; intros H; simpl; [reflexivity|].
  rewrite put_prop_fixed; auto.
  - simpl. apply IH. intros k s Hin. apply H. now right.
  - apply H. now left.
Qed.

Lemma In_given_entry k s k' t :
  In (k', t) (given_entry k s) <-> k' = k /\ given s = Some t.
Proof.
  unfold given_entry. destruct (given s) as [u|]; simpl.
  - split.
    + intros [[= -> ->]|[]]. auto.
    + intros [-> [= ->]]. auto.
  - split; [contradiction|]. intros [_ H]. discriminate.
Qed.

Lemma In_correlation o k s :
  In (k, s) (correlation o) <->
  (k = "testExecKey" /\ given (testExecKey o) = Some s) \/
  (k = "testPlanKey" /\ given (testPlanKey o) = Some s) \/
  (k = "testEnvironments" /\ given (testEnvironments o) = Some s) \/
  (k = "revision" /\ given (revision o) = Some s) \/
  (k = "fixVersion" /\ given (fixVersion o) = Some s).
Proof.
  unfold correlation. rewrite !in_app_iff, !In_given_entry. tauto.
Qed.

Lemma correlation_keys_NoDup o : NoDup (map fst (correlation o)).
Proof.
  unfold correlation, given_entry.
  destruct (given (testExecKey o)), (given (testPlanKey o)),
    (given (testEnvironments o)), (given (revision o)), (given (fixVersion o));
    simpl; repeat constructor; simpl; intuition discriminate.
Qed.

Lemma xray_part_object o x x' : xray_part o x = Normal x' -> truthy x' = true.
Proof. unfold xray_part. apply put_all_truthy, ensured_truthy. Qed.

Lemma ensured_truthy_id v : truthy v = true -> ensured v = v.
Proof. intros H. unfold ensured. now rewrite H. Qed.

Lemma put_all_nil_or_object es v v' :
  put_all es v = Normal v' -> es = [] /\ v' = v \/ is_object v = true.
Proof.
  destruct es as [|[k s] es]; simpl.
  - intros [= <-]. auto.
  - destruct (put_prop v k (JStr s)) eqn:E; [|discriminate]. intros _. right.
    destruct v; simpl in E; try discriminate; reflexivity.
Qed.

Lemma xray_part_idempotent o x x' :
  xray_part o x = Normal x' -> xray_part o x' = Normal x'.
Proof.
  intros H. pose proof (xray_part_object _ _ _ H) as Ht.
  unfold xray_part in *. rewrite (ensured_truthy_id _ Ht).
  destruct (put_all_nil_or_object _ _ _ H) as [[-> _]|Ho]; [reflexivity|].
  apply put_all_fixed.
  - eapply put_all_is_object; eauto.
  - intros k s Hin. eapply put_all_in; eauto using correlation_keys_NoDup.
Qed.

(** ** Idempotence *)

(** The descriptor of project OTHER, merged for project PRJ under plan
    PRJ-7 and fix version 1.0: the project key and the plan key are
    overwritten, the fix version is added, the stale revision stays. *)
Example merged_other_project :
  updateTestExecJson junit_plan other_project =
  ([ ("fields",
      JObj [ ("summary", JStr "Nightly run");
             ("project", JObj [("key", JStr "PRJ"); ("id", JNum 10000)]) ]);
     ("xrayFields",
      JObj [ ("revision", JStr "r41"); ("testPlanKey", JStr "PRJ-7");
             ("fixVersion", JStr "1.0") ]) ],
   Normal tt).
Proof. reflexivity. Qed.

Lemma updateTestExecJson_twice o d :
  updateTestExecJson o (merged o d) = updateTestExecJson o d.
Proof.
  unfold merged. rewrite (updateTestExecJson_run o d).
  destruct (project_part (projectKey o) (own "fields" d)) as [f|e] eqn:Ef; cbv zeta.
  - destruct (xray_part o (own "xrayFields" d)) as [x|e] eqn:Ex; cbn [fst].
    + rewrite updateTestExecJson_run.
      rewrite own_assign_other, own_assign_same by discriminate.
      rewrite (project_part_idempotent _ _ _ Ef). cbv zeta.
      rewrite own_assign_same, (xray_part_idempotent _ _ _ Ex).
      rewrite (assign_lookup "fields" f).
      * now rewrite assign_assign.
      * rewrite lookup_assign_other by discriminate. apply lookup_assign_same.
    + rewrite updateTestExecJson_run. rewrite own_assign_same.
      rewrite (project_part_idempotent _ _ _ Ef). cbv zeta.
      rewrite own_assign_other by discriminate. rewrite Ex.
      now rewrite assign_assign.
  - cbn [fst]. rewrite updateTestExecJson_run, Ef. reflexivity.
Qed.

(** C5: for every descriptor object and every ImportContext, running
    [updateTestExecJson] on the descriptor it has already been run on
    leaves that descriptor as it is, and ends the same way (returning, or
    throwing the same exception): twice is once. *)
Theorem updateTestExecJson_idempotent o d :
  merged o (merged o d) = merged o d /\
  snd (updateTestExecJson o (merged o d)) = snd (updateTestExecJson o d).
Proof.
  unfold merged at 1. now rewrite updateTestExecJson_twice.
Qed.

(** ** The project key *)

Lemma props_ensured v : props (ensured v) = props v.
Proof. unfold ensured. destruct v as [| |[]|n|s| |]; simpl; try reflexivity.
  - destruct (Z.eqb n 0); reflexivity.
  - destruct (String.eqb s ""); reflexivity.
Qed.

Lemma items_ensured v : items (ensured v) = items v.
Proof. unfold ensured. destruct v as [| |[]|n|s| |]; simpl; try reflexivity.
  - destruct (Z.eqb n 0); reflexivity.
  - destruct (String.eqb s ""); reflexivity.
Qed.

Lemma entry_ensured v k : entry (ensured v) k = entry v k.
Proof. unfold entry. now rewrite props_ensured. Qed.

Lemma peek_ensured v k : peek (ensured v) k = peek v k.
Proof. unfold peek. now rewrite props_ensured. Qed.

Lemma ensured_is_object v : absent_or_object v = true -> is_object (ensured v) = true.
Proof.
  unfold absent_or_object, ensured. destruct (truthy v); simpl; auto.
Qed.

Lemma project_part_defined pk f :
  absent_or_object f = true ->
  absent_or_object (peek f "project") = true ->
  exists f', project_part pk f = Normal f'.
Proof.
  intros Hf Hp. unfold project_part.
  pose proof (ensured_is_object _ Hf) as Hf'.
  rewrite (get_prop_object _ _ Hf'), peek_ensured. simpl.
  destruct (put_prop_object _ "key" (JStr pk) (ensured_is_object _ Hp))
    as (p' & -> & _). simpl.
  destruct (put_prop_object _ "project" p' Hf') as (f' & -> & _). eauto.
Qed.

(** The [fields] member after the call is what the project part made of
    it, whatever happens to [xrayFields] afterwards. *)
Lemma merged_fields o d f :
  project_part (projectKey o) (own "fields" d) = Normal f ->
  own "fields" (merged o d) = f.
Proof.
  intros Hf. unfold merged. rewrite updateTestExecJson_run, Hf. cbv zeta.
  destruct (xray_part o (own "xrayFields" d)); cbn [fst].
  - rewrite own_assign_other by discriminate. apply own_assign_same.
  - apply own_assign_same.
Qed.

Lemma merged_unchanged o d e :
  project_part (projectKey o) (own "fields" d) = Throw e -> merged o d = d.
Proof. intros Hf. unfold merged. now rewrite updateTestExecJson_run, Hf. Qed.

(** C6, amended: for every descriptor object whose [fields] is absent,
    falsy or an object, and whose [fields.project] is absent, falsy or an
    object, after [updateTestExecJson] both [fields] and [fields.project]
    are objects and [fields.project.key] is the ImportContext's
    [projectKey], whatever project key the caller had put there. *)
Theorem updateTestExecJson_forces_project_key o d :
  absent_or_object (own "fields" d) = true ->
  absent_or_object (peek (own "fields" d) "project") = true ->
  project_key_forced o (merged o d).
Proof.
  intros Hf Hp.
  destruct (project_part_defined (projectKey o) _ Hf Hp) as (f' & Hf').
  unfold project_key_forced. rewrite (merged_fields _ _ _ Hf').
  destruct (project_part_result _ _ _ Hf') as (H1 & H2 & H3 & _). auto.
Qed.

(** C6, an instance: the descriptor names project OTHER; after the call
    it names PRJ. *)
Lemma updateTestExecJson_forces_other_project :
  absent_or_object (own "fields" other_project) = true /\
  absent_or_object (peek (own "fields" other_project) "project") = true /\
  project_key_forced junit_plan (merged junit_plan other_project).
Proof.
  split; [reflexivity|]. split; [reflexivity|].
  apply updateTestExecJson_forces_project_key; reflexivity.
Defined.

(** C6 as first stated fails: a descriptor whose [fields] is the string
    ["abc"] is left as it is (the call throws a TypeError at line 75), so
    [fields] is no object afterwards. *)
Lemma fields_is_text_not_forced :
  ~ project_key_forced junit_plan (merged junit_plan fields_is_text).
Proof. intros [H _]. vm_compute in H. discriminate H. Qed.

(** ** Frame *)

Lemma put_prop_items v k x v' : put_prop v k x = Normal v' -> items v' = items v.
Proof. destruct v; simpl; intros [= <-]; reflexivity. Qed.

Lemma put_all_items es v v' : put_all es v = Normal v' -> items v' = items v.
Proof.
  revert v. induction es as [|[k s] es IH]; intros v; simpl.
  - now intros [= <-].
  - destruct (put_prop v k (JStr s)) as [v1|] eqn:E; [|discriminate]. simpl.
    intros H. rewrite (IH _ H). eapply put_prop_items; eauto.
Qed.

Lemma project_part_items pk f f' :
  project_part pk f = Normal f' ->
  items f' = items f /\ items (peek f' "project") = items (peek f "project").
Proof.
  intros H. unfold project_part in H.
  destruct (get_prop (ensured f) "project") as [p|] eqn:Ep; [|discriminate].
  simpl in H.
  destruct (put_prop (ensured p) "key" (JStr pk)) as [p'|] eqn:Ek; [|discriminate].
  simpl in H.
  assert (Hp : p = peek f "project").
  { rewrite <- (peek_ensured f).
    destruct (ensured f); simpl in Ep; try discriminate;
      injection Ep as <-; reflexivity. }
  split.
  - rewrite (put_prop_items _ _ _ _ H). apply items_ensured.
  - unfold peek at 1. rewrite (put_prop_props _ _ _ _ H), own_assign_same.
    rewrite (put_prop_items _ _ _ _ Ek), items_ensured. now subst p.
Qed.

Lemma merged_xrayFields o d :
  own "xrayFields" (merged o d) = own "xrayFields" d \/
  xray_part o (own "xrayFields" d) = Normal (own "xrayFields" (merged o d)).
Proof.
  unfold merged. rewrite updateTestExecJson_run.
  destruct (project_part (projectKey o) (own "fields" d)) as [f|]; cbv zeta;
    [|now left].
  destruct (xray_part o (own "xrayFields" d)) as [x|]; cbn [fst].
  - right. now rewrite own_assign_same.
  - left. now rewrite own_assign_other by discriminate.
Qed.

Lemma merged_other o d k :
  k <> "fields" -> k <> "xrayFields" -> lookup k (merged o d) = lookup k d.
Proof.
  intros H1 H2. unfold merged. rewrite updateTestExecJson_run.
  destruct (project_part (projectKey o) (own "fields" d)) as [f|]; cbv zeta;
    [|reflexivity].
  destruct (xray_part o (own "xrayFields" d)) as [x|]; cbn [fst];
    now rewrite ?lookup_assign_other by assumption.
Qed.

Lemma not_in_correlation o k :
  (k = "testExecKey" -> given (testExecKey o) = None) ->
  (k = "testPlanKey" -> given (testPlanKey o) = None) ->
  (k = "testEnvironments" -> given (testEnvironments o) = None) ->
  (k = "revision" -> given (revision o) = None) ->
  (k = "fixVersion" -> given (fixVersion o) = None) ->
  ~ In k (map fst (correlation o)).
Proof.
  intros H1 H2 H3 H4 H5 Hin. apply in_map_iff in Hin.
  destruct Hin as ([k' s] & Hk & Hin). simpl in Hk. subst k'.
  apply In_correlation in Hin.
  destruct Hin as [[E G]|[[E G]|[[E G]|[[E G]|[E G]]]]];
    [specialize (H1 E)|specialize (H2 E)|specialize (H3 E)
    |specialize (H4 E)|specialize (H5 E)]; congruence.
Qed.

(** What the call makes of the three containers. *)
Lemma kept_refl v : kept v v.
Proof. destruct v; simpl; eauto. Qed.

Lemma put_prop_kept v k x v' : put_prop v k x = Normal v' -> kept v v'.
Proof. destruct v; simpl; intros [= <-]; eauto. Qed.

Lemma put_all_kept es : forall v v', put_all es v = Normal v' -> kept v v'.
Proof.
  induction es as [|[k s] es IH]; intros v v'; simpl.
  - intros [= <-]. apply kept_refl.
  - destruct (put_prop v k (JStr s)) as [v1|] eqn:E; [|discriminate]. simpl.
    intros H. apply IH in H.
    destruct v; simpl in E; try discriminate; injection E as <-; exact H.
Qed.

Lemma kept_ensured v v' : kept (ensured v) v' -> kept v v'.
Proof.
  unfold ensured. destruct (truthy v) eqn:T; [auto|].
  simpl. intros [ps ->].
  destruct v; simpl in T |- *; try discriminate; right; eauto.
Qed.

Lemma project_part_kept pk f f' :
  project_part pk f = Normal f' ->
  kept f f' /\ kept (peek f "project") (peek f' "project").
Proof.
  intros H. unfold project_part in H.
  destruct (get_prop (ensured f) "project") as [p|] eqn:Ep; [|discriminate].
  simpl in H.
  destruct (put_prop (ensured p) "key" (JStr pk)) as [p'|] eqn:Ek; [|discriminate].
  simpl in H.
  assert (Hp : p = peek f "project").
  { rewrite <- (peek_ensured f).
    destruct (ensured f); simpl in Ep; try discriminate;
      injection Ep as <-; reflexivity. }
  split.
  - apply kept_ensured. eapply put_prop_kept; eauto.
  - unfold peek at 2. rewrite (put_prop_props _ _ _ _ H), own_assign_same.
    subst p. apply kept_ensured. eapply put_prop_kept; eauto.
Qed.

(** C9, amended: for every descriptor object, [updateTestExecJson]
    leaves unchanged every top-level member other than [fields] and
    [xrayFields], every entry of [fields] other than [project], every
    entry of [fields.project] other than [key], and every entry of
    [xrayFields] other than the five correlation fields that are
    non-empty in the ImportContext: an [xrayFields] entry whose context
    field is empty or absent keeps the caller's value.  Of the three
    containers [fields], [fields.project] and [xrayFields], an object
    stays an object, an array keeps its elements, and a falsy value
    (absent included) is left as it is or replaced by an object, also
    when no correlation field is present; any other value is left as it
    is. *)
Theorem updateTestExecJson_frame o d :
  let d' := merged o d in
  (forall k, k <> "fields" -> k <> "xrayFields" -> lookup k d' = lookup k d) /\
  (forall k, k <> "project" ->
     entry (own "fields" d') k = entry (own "fields" d) k) /\
  (forall k, k <> "key" ->
     entry (peek (own "fields" d') "project") k =
     entry (peek (own "fields" d) "project") k) /\
  (forall k,
     (k = "testExecKey" -> given (testExecKey o) = None) ->
     (k = "testPlanKey" -> given (testPlanKey o) = None) ->
     (k = "testEnvironments" -> given (testEnvironments o) = None) ->
     (k = "revision" -> given (revision o) = None) ->
     (k = "fixVersion" -> given (fixVersion o) = None) ->
     entry (own "xrayFields" d') k = entry (own "xrayFields" d) k) /\
  (kept (own "fields" d) (own "fields" d') /\
   kept (peek (own "fields" d) "project") (peek (own "fields" d') "project") /\
   kept (own "xrayFields" d) (own "xrayFields" d')).
Proof.
  cbv zeta. split; [intros; now apply merged_other|].
  assert (Hx : forall k, ~ In k (map fst (correlation o)) ->
            entry (own "xrayFields" (merged o d)) k = entry (own "xrayFields" d) k).
  { intros k Hk. destruct (merged_xrayFields o d) as [->|H]; [reflexivity|].
    unfold xray_part in H. rewrite (put_all_other _ _ _ _ H Hk).
    apply entry_ensured. }
  assert (Hxk : kept (own "xrayFields" d) (own "xrayFields" (merged o d))).
  { destruct (merged_xrayFields o d) as [->|H]; [apply kept_refl|].
    unfold xray_part in H. apply kept_ensured. eapply put_all_kept; eauto. }
  destruct (project_part (projectKey o) (own "fields" d)) as [f|e] eqn:Ef.
  - rewrite (merged_fields _ _ _ Ef).
    destruct (project_part_result _ _ _ Ef) as (_ & _ & _ & H4 & H5).
    destruct (project_part_kept _ _ _ Ef) as (K1 & K2).
    repeat split; auto.
    + intros k Hk. rewrite (H4 k Hk). apply entry_ensured.
    + intros k Hk. rewrite (H5 k Hk), entry_ensured. now rewrite peek_ensured.
    + intros. apply Hx. now apply not_in_correlation.
  - rewrite (merged_unchanged _ _ _ Ef).
    repeat split; auto using kept_refl.
Qed.

(** C9 as first stated fails: with no correlation field in the context,
    the descriptor [{"xrayFields": 0}] comes back with [xrayFields]
    replaced by an empty object (line 79), although no [xrayFields]
    entry is to be written. *)
Lemma falsy_xrayFields_replaced :
  ~ modifies_only_listed junit_only xrayFields_is_zero.
Proof.
  intros [H _].
  specialize (H "xrayFields").
  assert (E : lookup "xrayFields" (merged junit_only xrayFields_is_zero)
              = lookup "xrayFields" xrayFields_is_zero).
  { apply H; [discriminate|]. intros _. repeat split. }
  vm_compute in E. discriminate E.
Qed.

(** The same context on two whole descriptors: [xrayFields] is added to
    the one that has none, and replaces the falsy one. *)
Example merged_summary_only :
  merged junit_only summary_only
  = [ ("fields",
       JObj [ ("summary", JStr "Nightly run");
              ("project", JObj [("key", JStr "PRJ")]) ]);
      ("xrayFields", JObj []) ].
Proof. reflexivity. Qed.

Example merged_xrayFields_is_zero :
  merged junit_only xrayFields_is_zero
  = [ ("xrayFields", JObj []);
      ("fields", JObj [("project", JObj [("key", JStr "PRJ")])]) ].
Proof. reflexivity. Qed.

(** ** Query parameters *)

Lemma given_Some s t : given s = Some t <-> s = Some t /\ t <> "".
Proof.
  unfold given. destruct s as [u|].
  - destruct (String.eqb u "") eqn:E.
    + apply String.eqb_eq in E. split; [discriminate|]. intros [[= ->] H]. contradiction.
    + apply String.eqb_neq in E. split.
      * intros [= ->]. auto.
      * intros [[= ->] _]. reflexivity.
  - split; [discriminate|]. intros [H _]. discriminate.
Qed.

Lemma given_None s : given s = None <-> absent s.
Proof.
  unfold given, absent. destruct s as [u|].
  - destruct (String.eqb u "") eqn:E.
    + apply String.eqb_eq in E. subst. tauto.
    + apply String.eqb_neq in E. split; [discriminate|].
      intros [H|[= H]]; [discriminate|contradiction].
  - tauto.
Qed.

Lemma elements_correlation io :
  elements io = ("projectKey", projectKey io) :: correlation io.
Proof.
  unfold elements, correlation, push_given, given_entry.
  destruct (given (testExecKey io)), (given (testPlanKey io)),
    (given (testEnvironments io)), (given (revision io)), (given (fixVersion io));
    reflexivity.
Qed.

Lemma given_entry_filter k s :
  given_entry k s =
  filter (fun e => negb (String.eqb (snd e) "")) [(k, value_or_empty s)].
Proof.
  unfold given_entry, given. destruct s as [t|]; simpl; [|reflexivity].
  destruct (String.eqb t ""); reflexivity.
Qed.

Lemma elements_buildQueryParameters io : elements io = buildQueryParameters io.
Proof.
  rewrite elements_correlation. unfold buildQueryParameters, correlation.
  f_equal. rewrite !given_entry_filter, <- !filter_app. reflexivity.
Qed.

(** C4, amended: for every ImportContext, the query parameters that
    [createSearchParams] stores are the spec's [buildQueryParameters]:
    [projectKey] first, whatever its value, then [testExecKey],
    [testPlanKey], [testEnvironments], [revision], [fixVersion] in that
    order, each present exactly when its field is a non-empty string; no
    entry after the first has an empty value. *)
Theorem createSearchParams_order x :
  let io := xrayImportOptions x in
  let ps := searchParams (createSearchParams x) in
  ps = buildQueryParameters io /\
  hd_error ps = Some ("projectKey", projectKey io) /\
  (forall k v, In (k, v) (tl ps) -> v <> "") /\
  (forall k v, In (k, v) (tl ps) <->
     (k = "testExecKey" /\ testExecKey io = Some v /\ v <> "") \/
     (k = "testPlanKey" /\ testPlanKey io = Some v /\ v <> "") \/
     (k = "testEnvironments" /\ testEnvironments io = Some v /\ v <> "") \/
     (k = "revision" /\ revision io = Some v /\ v <> "") \/
     (k = "fixVersion" /\ fixVersion io = Some v /\ v <> "")).
Proof.
  cbv zeta. unfold createSearchParams. cbn [searchParams with_searchParams].
  split; [apply elements_buildQueryParameters|].
  rewrite elements_correlation. cbn [hd_error tl]. split; [reflexivity|].
  assert (H : forall k v, In (k, v) (correlation (xrayImportOptions x)) <->
     (k = "testExecKey" /\ testExecKey (xrayImportOptions x) = Some v /\ v <> "") \/
     (k = "testPlanKey" /\ testPlanKey (xrayImportOptions x) = Some v /\ v <> "") \/
     (k = "testEnvironments" /\ testEnvironments (xrayImportOptions x) = Some v /\ v <> "") \/
     (k = "revision" /\ revision (xrayImportOptions x) = Some v /\ v <> "") \/
     (k = "fixVersion" /\ fixVersion (xrayImportOptions x) = Some v /\ v <> "")).
  { intros k v. rewrite In_correlation, !given_Some. tauto. }
  split; [|exact H].
  intros k v Hin. apply H in Hin. tauto.
Qed.

(** C4 as first stated fails: with an empty [projectKey] the list still
    starts with the entry [projectKey = ""], an entry whose source value
    is empty. *)
Lemma empty_projectKey_parameter : ~ no_empty_parameter no_project.
Proof.
  intros [_ H]. apply (H "projectKey" ""); [|reflexivity].
  left. reflexivity.
Qed.

(** ** Updating the execution key *)

(** C7, amended: for every client and every non-empty new key,
    [updateTestExecKey] stores the key in the options and rebuilds the
    query parameters from the updated options: the new key is in the
    rebuilt list and it is the only [testExecKey] there. *)
Theorem updateTestExecKey_regenerates x k :
  k <> "" -> key_regenerated x k.
Proof.
  intros Hk. unfold key_regenerated, updateTestExecKey, createSearchParams.
  cbn [xrayImportOptions searchParams with_searchParams with_importOptions].
  split; [reflexivity|]. split; [reflexivity|].
  rewrite elements_correlation.
  split.
  - right. apply In_correlation. left. split; [reflexivity|].
    apply given_Some. cbn. auto.
  - intros v [[= _]|Hin]. apply In_correlation in Hin.
    destruct Hin as [[_ G]|[[E _]|[[E _]|[[E _]|[E _]]]]]; try discriminate E.
    apply given_Some in G. cbn in G. destruct G as [[= ->] _]. reflexivity.
Qed.

(** An empty new key fails the guard of line 47: the rebuilt list has no
    [testExecKey] entry at all. *)
Lemma updateTestExecKey_empty x :
  forall v, ~ In ("testExecKey", v) (searchParams (updateTestExecKey x "")).
Proof.
  intros v. unfold updateTestExecKey, createSearchParams.
  cbn [xrayImportOptions searchParams with_searchParams with_importOptions].
  rewrite elements_correlation. intros [[= _]|Hin].
  apply In_correlation in Hin.
  destruct Hin as [[_ G]|[[E _]|[[E _]|[[E _]|[E _]]]]]; try discriminate E.
  cbn in G. discriminate.
Qed.

(** C7, an instance: PRJ-41 is replaced by PRJ-42. *)
Lemma updateTestExecKey_regenerates_new_key :
  "PRJ-42" <> "" /\ key_regenerated (constructor cloud junit_exec) "PRJ-42".
Proof.
  split; [discriminate|].
  apply updateTestExecKey_regenerates. discriminate.
Defined.

(** C7 as first stated fails: the new key [""] does not appear in the
    rebuilt parameters. *)
Lemma empty_key_not_regenerated :
  ~ key_regenerated (constructor cloud junit_exec) "".
Proof.
  intros (_ & _ & H & _). revert H. apply updateTestExecKey_empty.
Qed.

(** ** The options in effect after a merge *)

Lemma body_of_merge defaults o :
  Got.body_of (Got.merge defaults o) =
  fold_left (fun acc s => match s with Got.body p => Some p | _ => acc end)
    o (Got.body_of defaults).
Proof. apply fold_left_app. Qed.

Lemma searchParams_of_merge defaults o :
  Got.searchParams_of (Got.merge defaults o) =
  fold_left (fun acc s => match s with Got.searchParams ps => Some ps | _ => acc end)
    o (Got.searchParams_of defaults).
Proof. apply fold_left_app. Qed.

Lemma headers_of_merge defaults o :
  Got.headers_of (Got.merge defaults o) =
  fold_left
    (fun acc s => match s with Got.headers hs => Got.merge_headers acc hs | _ => acc end)
    o (Got.headers_of defaults).
Proof. apply fold_left_app. Qed.

Section MergedOptions.
Variables defaults o : Got.options.

Lemma username_of_merge :
  username_of (Got.merge defaults o) =
  fold_left (fun acc s => match s with Got.username u => Some u | _ => acc end)
    o (username_of defaults).
Proof. apply fold_left_app. Qed.

Lemma password_of_merge :
  password_of (Got.merge defaults o) =
  fold_left (fun acc s => match s with Got.password p => Some p | _ => acc end)
    o (password_of defaults).
Proof. apply fold_left_app. Qed.

Lemma prefixUrl_of_merge :
  Got.prefixUrl_of (Got.merge defaults o) =
  fold_left (fun acc s => match s with Got.prefixUrl u => Some u | _ => acc end)
    o (Got.prefixUrl_of defaults).
Proof. apply fold_left_app. Qed.

Lemma responseType_of_merge :
  responseType_of (Got.merge defaults o) =
  fold_left (fun acc s => match s with Got.responseType t => Some t | _ => acc end)
    o (responseType_of defaults).
Proof. apply fold_left_app. Qed.

Lemma timeout_of_merge :
  timeout_of (Got.merge defaults o) =
  fold_left (fun acc s => match s with Got.timeout ms => Some ms | _ => acc end)
    o (timeout_of defaults).
Proof. apply fold_left_app. Qed.

Lemma retry_of_merge :
  retry_of (Got.merge defaults o) =
  fold_left (fun acc s => match s with Got.retry n => Some n | _ => acc end)
    o (retry_of defaults).
Proof. apply fold_left_app. Qed.

Lemma http2_of_merge :
  http2_of (Got.merge defaults o) =
  fold_left (fun acc s => match s with Got.http2 b => Some b | _ => acc end)
    o (http2_of defaults).
Proof. apply fold_left_app. Qed.

End MergedOptions.

(** ** What [auth] and [import] do, event by event *)

Lemma auth_trace x r :
  trace_of (auth x r) =
  if xrayServer (xrayOptions x) then
    [ Request GET "/api/2/myself"
        (Got.merge (gotClient x)
           [ Got.prefixUrl (xrayProtocol x ++ "://" ++ xrayBaseUrl (xrayOptions x)) ]) ]
  else
    Request POST "/authenticate"
      (Got.merge (gotClient x)
         [ Got.json
             (JObj [ ("client_id", JStr (username (xrayOptions x)));
                     ("client_secret", JStr (password (xrayOptions x))) ]) ])
    :: match r with
       | Responded token => [CoreSetSecret token]
       | Failed _ => []
       end.
Proof.
  unfold auth, trace_of. destruct (xrayServer (xrayOptions x)), r; reflexivity.
Qed.

Lemma auth_gotClient x r :
  gotClient (client_of (auth x r)) =
  match xrayServer (xrayOptions x), r with
  | false, Responded token =>
      Got.extend (gotClient x) [ Got.headers [("Authorization", "Bearer " ++ token)] ]
  | _, _ => gotClient x
  end.
Proof.
  unfold auth, client_of. destruct (xrayServer (xrayOptions x)), r; reflexivity.
Qed.

Lemma import_outcome x data r :
  let io := xrayImportOptions x in
  match submission_of io with
  | Multipart d =>
      client_of (import x data r)
        = with_importOptions x (with_testExecutionJson io (Some (merged io d))) /\
      match snd (updateTestExecJson io d) with
      | Throw e =>
          trace_of (import x data r) = [] /\ result_of (import x data r) = Throw e
      | Normal _ =>
          trace_of (import x data r) =
            ([ CoreDebug
                 ("Using multipart endpoint: " ++ prefix_of (gotClient x)
                  ++ "/import/execution/" ++ subpath (testFormat io) ++ "/multipart");
               Request POST
                 ("/import/execution/" ++ subpath (testFormat io) ++ "/multipart")
                 (multipart_options x (merged io d) data) ]
             ++ mismatch_warning false r)%list /\
          result_of (import x data r) = settled false r
      end
  | RawBody =>
      client_of (import x data r) = x /\
      trace_of (import x data r) =
        ([ CoreDebug
             ("Using endpoint: " ++ prefix_of (gotClient x)
              ++ "/import/execution/" ++ subpath (testFormat io));
           Request POST ("/import/execution/" ++ subpath (testFormat io))
             (raw_options x data) ]
         ++ mismatch_warning true r)%list /\
      result_of (import x data r) = settled true r
  end.
Proof.
  cbv zeta. unfold import, client_of, trace_of, result_of, merged.
  destruct (submission_of (xrayImportOptions x)) as [d|].
  - destruct (updateTestExecJson (xrayImportOptions x) d) as [d' [[]|e]];
      cbn [fst snd]; [|repeat split].
    destruct r as [body|e]; cbn [mismatch_warning settled andb];
      [destruct (get_prop body "key")|]; cbn [fst snd]; repeat split.
  - destruct r as [body|e]; cbn [mismatch_warning settled andb].
    + destruct (get_prop body "key") eqn:E.
      * cbn [fst snd]. repeat split.
      * destruct body; try discriminate E; cbn [fst snd]; repeat split.
    + cbn [fst snd]. repeat split.
Qed.

Lemma mismatch_warning_shape whole r :
  mismatch_warning whole r = [] \/ exists w, mismatch_warning whole r = [CoreWarning w].
Proof.
  unfold mismatch_warning. destruct r as [body|]; [|now left].
  destruct (get_prop body "key"); [now left|].
  destruct (whole && negb (truthy body)); [now left|right; eauto].
Qed.

Lemma requests_mismatch_warning whole r : requests (mismatch_warning whole r) = [].
Proof.
  destruct (mismatch_warning_shape whole r) as [->|[w ->]]; reflexivity.
Qed.

(** The requests of one [import]: none when the merge throws, else the
    one POST of its path. *)
Lemma import_requests x data r :
  let io := xrayImportOptions x in
  requests (trace_of (import x data r)) =
  match submission_of io with
  | Multipart d =>
      match snd (updateTestExecJson io d) with
      | Throw _ => []
      | Normal _ =>
          [ Request POST
              ("/import/execution/" ++ subpath (testFormat io) ++ "/multipart")
              (multipart_options x (merged io d) data) ]
      end
  | RawBody =>
      [ Request POST ("/import/execution/" ++ subpath (testFormat io))
          (raw_options x data) ]
  end.
Proof.
  cbv zeta. pose proof (import_outcome x data r) as H. cbv zeta in H.
  destruct (submission_of (xrayImportOptions x)) as [d|].
  - destruct H as [_ H].
    destruct (snd (updateTestExecJson (xrayImportOptions x) d));
      destruct H as [-> _]; [|reflexivity].
    unfold requests. rewrite filter_app.
    fold (requests (mismatch_warning false r)).
    now rewrite requests_mismatch_warning.
  - destruct H as (_ & -> & _).
    unfold requests. rewrite filter_app.
    fold (requests (mismatch_warning true r)).
    now rewrite requests_mismatch_warning.
Qed.

(** ** The request issued by [import] *)

Lemma import_request x data r m url options :
  In (Request m url options) (trace_of (import x data r)) ->
  let io := xrayImportOptions x in
  m = POST /\
  match submission_of io with
  | Multipart d =>
      updateTestExecJson io d = (merged io d, Normal tt) /\
      url = "/import/execution/" ++ subpath (testFormat io) ++ "/multipart" /\
      options = multipart_options x (merged io d) data
  | RawBody =>
      url = "/import/execution/" ++ subpath (testFormat io) /\
      options = raw_options x data
  end.
Proof.
  intros HIn. cbv zeta.
  pose proof (import_outcome x data r) as H. cbv zeta in H.
  unfold merged in *.
  destruct (submission_of (xrayImportOptions x)) as [d|].
  - destruct H as [_ H].
    destruct (updateTestExecJson (xrayImportOptions x) d) as [d' [[]|e]];
      cbn [fst snd] in *; destruct H as [Ht _]; rewrite Ht in HIn;
      [|contradiction].
    apply in_app_iff in HIn. destruct HIn as [[HIn|[HIn|[]]]|HIn].
    + discriminate HIn.
    + injection HIn as <- <- <-. auto.
    + destruct (mismatch_warning_shape false r) as [E|[w E]]; rewrite E in HIn.
      * contradiction.
      * destruct HIn as [HIn|[]]; discriminate HIn.
  - destruct H as (_ & Ht & _). rewrite Ht in HIn.
    apply in_app_iff in HIn. destruct HIn as [[HIn|[HIn|[]]]|HIn].
    + discriminate HIn.
    + injection HIn as <- <- <-. auto.
    + destruct (mismatch_warning_shape true r) as [E|[w E]]; rewrite E in HIn.
      * contradiction.
      * destruct HIn as [HIn|[]]; discriminate HIn.
Qed.

(** ** Path selection *)

Lemma submission_of_Multipart io d :
  submission_of io = Multipart d <->
  testExecutionJson io = Some d /\ absent (testExecKey io).
Proof.
  unfold submission_of. rewrite <- given_None.
  destruct (testExecutionJson io) as [d'|], (given (testExecKey io)) as [t|];
    split; try discriminate; try (intros [H1 H2]; discriminate).
  - intros [= ->]. auto.
  - intros [[= ->] _]. reflexivity.
Qed.

Lemma submission_of_RawBody io :
  submission_of io = RawBody <->
  testExecutionJson io = None \/ ~ absent (testExecKey io).
Proof.
  unfold submission_of. rewrite <- given_None.
  destruct (testExecutionJson io) as [d'|], (given (testExecKey io)) as [t|];
    split; try discriminate; auto.
  - intros _. right. discriminate.
  - intros [H|H]; [discriminate|]. contradiction H. reflexivity.
Qed.

Lemma sends_form_multipart x d data :
  sends_form (multipart_options x d data) /\ ~ sends_raw (multipart_options x d data).
Proof.
  unfold sends_form, sends_raw, multipart_options.
  rewrite body_of_merge. cbn [fold_left]. split; [eauto|].
  intros [b Hb]. discriminate Hb.
Qed.

Lemma sends_raw_raw x data :
  sends_raw (raw_options x data) /\ ~ sends_form (raw_options x data).
Proof.
  unfold sends_form, sends_raw, raw_options.
  rewrite body_of_merge. cbn [fold_left]. split; [eauto|].
  intros [b Hb]. discriminate Hb.
Qed.

(** C2: for every ImportContext, when a descriptor is present and
    [testExecKey] is absent ([undefined] or empty), [import] issues
    exactly one request, the multipart one (a form, no raw bytes), unless
    the merge of the descriptor throws, in which case it issues nothing
    and rejects with that exception; in every other case (no descriptor,
    or a non-empty [testExecKey]) it issues exactly one request, the
    raw-body one (the bytes, no form).  The two cases are exhaustive, and
    they are the two values of the test of lines 138-141. *)
Theorem import_path_selection x data r :
  let io := xrayImportOptions x in
  let after := import x data r in
  (forall d, testExecutionJson io = Some d -> absent (testExecKey io) ->
     match snd (updateTestExecJson io d) with
     | Normal _ =>
         exists url options,
           requests (trace_of after) = [Request POST url options] /\
           options = multipart_options x (merged io d) data /\
           sends_form options /\ ~ sends_raw options
     | Throw e => trace_of after = [] /\ result_of after = Throw e
     end) /\
  (testExecutionJson io = None \/ ~ absent (testExecKey io) ->
   exists url options,
     requests (trace_of after) = [Request POST url options] /\
     options = raw_options x data /\
     sends_raw options /\ ~ sends_form options) /\
  ((exists d, testExecutionJson io = Some d /\ absent (testExecKey io)) \/
   (testExecutionJson io = None \/ ~ absent (testExecKey io))) /\
  (forall d, submission_of io = Multipart d <->
             testExecutionJson io = Some d /\ absent (testExecKey io)) /\
  (submission_of io = RawBody <->
   testExecutionJson io = None \/ ~ absent (testExecKey io)) /\
  (forall m url options,
     In (Request m url options) (trace_of after) ->
     (sends_form options <->
      testExecutionJson io <> None /\ absent (testExecKey io)) /\
     (sends_raw options <->
      testExecutionJson io = None \/ ~ absent (testExecKey io))).
Proof.
  cbv zeta.
  pose proof (import_outcome x data r) as Ho. cbv zeta in Ho.
  pose proof (import_requests x data r) as Hq. cbv zeta in Hq.
  split; [|split; [|split; [|split; [|split]]]].
  - intros d Hd Hk.
    assert (Es : submission_of (xrayImportOptions x) = Multipart d)
      by (apply submission_of_Multipart; auto).
    rewrite Es in Ho, Hq. destruct Ho as [_ Ho].
    destruct (snd (updateTestExecJson (xrayImportOptions x) d)).
    + do 2 eexists. split; [exact Hq|]. split; [reflexivity|].
      apply sends_form_multipart.
    + exact Ho.
  - intros Hc. apply submission_of_RawBody in Hc. rewrite Hc in Hq.
    do 2 eexists. split; [exact Hq|]. split; [reflexivity|].
    apply sends_raw_raw.
  - destruct (submission_of (xrayImportOptions x)) as [d|] eqn:Es.
    + left. exists d. now apply submission_of_Multipart.
    + right. now apply submission_of_RawBody.
  - intros d. apply submission_of_Multipart.
  - apply submission_of_RawBody.
  - intros m url options Hin. apply import_request in Hin. cbv zeta in Hin.
    destruct Hin as [_ Hin].
    destruct (submission_of (xrayImportOptions x)) as [d|] eqn:Es.
    + destruct Hin as (_ & _ & ->).
      apply submission_of_Multipart in Es. destruct Es as [Ed Ek].
      destruct (sends_form_multipart x (merged (xrayImportOptions x) d) data)
        as [Hf Hr].
      split; split.
      * intros _. split; [congruence|assumption].
      * intros _. exact Hf.
      * intros H. contradiction.
      * intros [H|H]; [congruence|contradiction].
    + destruct Hin as (_ & ->).
      apply submission_of_RawBody in Es.
      destruct (sends_raw_raw x data) as [Hr Hf].
      split; split.
      * intros H. contradiction.
      * intros [Hd Hk]. destruct Es; contradiction.
      * intros _. assumption.
      * intros _. exact Hr.
Qed.

(** C2, three instances: a descriptor and no key (multipart); a
    descriptor and a key (raw); no descriptor (raw). *)
Lemma import_path_selection_samples :
  (exists url,
     requests (trace_of (import (constructor cloud junit_descriptor) results_xml created))
     = [ Request POST url
           (multipart_options (constructor cloud junit_descriptor)
              (merged junit_descriptor other_project) results_xml) ]) /\
  (exists url,
     requests (trace_of (import (constructor cloud junit_both) results_xml created))
     = [ Request POST url (raw_options (constructor cloud junit_both) results_xml) ]) /\
  (exists url,
     requests (trace_of (import (constructor cloud junit_plan) results_xml created))
     = [ Request POST url (raw_options (constructor cloud junit_plan) results_xml) ]).
Proof.
  split; [|split].
  - destruct (import_path_selection (constructor cloud junit_descriptor)
                results_xml created) as (Hm & _).
    specialize (Hm other_project eq_refl (or_introl eq_refl)).
    change (snd (updateTestExecJson
                   (xrayImportOptions (constructor cloud junit_descriptor))
                   other_project))
      with (@Normal unit tt) in Hm.
    cbv iota beta in Hm.
    destruct Hm as (url & options & Hq & Ho & _). exists url.
    subst options. exact Hq.
  - destruct (import_path_selection (constructor cloud junit_both)
                results_xml created) as (_ & Hr & _).
    destruct Hr as (url & options & Hq & Ho & _).
    { right. intros [H|H]; discriminate H. }
    exists url. subst options. exact Hq.
  - destruct (import_path_selection (constructor cloud junit_plan)
                results_xml created) as (_ & Hr & _).
    destruct Hr as (url & options & Hq & Ho & _).
    { left. reflexivity. }
    exists url. subst options. exact Hq.
Defined.

(** ** Endpoint *)

Lemma append_empty s : s ++ "" = s.
Proof. induction s; simpl; congruence. Qed.

Lemma subpath_xray f : f = "xray" -> subpath f = "".
Proof. intros ->. reflexivity. Qed.

Lemma subpath_other f : f <> "xray" -> subpath f = f.
Proof. intros H. unfold subpath. apply String.eqb_neq in H. now rewrite H. Qed.

(** C3: the one request that [import] issues is a POST to
    [/import/execution/] with no format segment when the format code is
    ["xray"], and to [/import/execution/{format}] for every other format
    code, with [/multipart] appended on the multipart path; [import]
    issues no other request, and none at all only when the merge of the
    descriptor throws. *)
Theorem import_endpoint x data r :
  let io := xrayImportOptions x in
  let after := import x data r in
  let suffix :=
    match submission_of io with
    | Multipart _ => "/multipart"
    | RawBody => ""
    end in
  let posts_to url :=
    match submission_of io with
    | Multipart d =>
        match snd (updateTestExecJson io d) with
        | Normal _ =>
            requests (trace_of after)
            = [Request POST url (multipart_options x (merged io d) data)]
        | Throw e => trace_of after = [] /\ result_of after = Throw e
        end
    | RawBody =>
        requests (trace_of after) = [Request POST url (raw_options x data)]
    end in
  (testFormat io = "xray" -> posts_to ("/import/execution/" ++ suffix)) /\
  (testFormat io <> "xray" ->
   posts_to ("/import/execution/" ++ testFormat io ++ suffix)) /\
  (forall m url options,
     In (Request m url options) (trace_of after) ->
     m = POST /\
     (testFormat io = "xray" -> url = "/import/execution/" ++ suffix) /\
     (testFormat io <> "xray" ->
      url = "/import/execution/" ++ testFormat io ++ suffix)).
Proof.
  cbv zeta.
  pose proof (import_outcome x data r) as Ho. cbv zeta in Ho.
  pose proof (import_requests x data r) as Hq. cbv zeta in Hq.
  split; [|split].
  - intros Hf. rewrite (subpath_xray _ Hf) in Hq.
    destruct (submission_of (xrayImportOptions x)) as [d|].
    + destruct Ho as [_ Ho].
      destruct (snd (updateTestExecJson (xrayImportOptions x) d));
        [exact Hq|exact Ho].
    + exact Hq.
  - intros Hf. rewrite (subpath_other _ Hf) in Hq.
    destruct (submission_of (xrayImportOptions x)) as [d|].
    + destruct Ho as [_ Ho].
      destruct (snd (updateTestExecJson (xrayImportOptions x) d));
        [exact Hq|exact Ho].
    + now rewrite append_empty.
  - intros m url options Hin. apply import_request in Hin. cbv zeta in Hin.
    destruct Hin as [-> Hin]. split; [reflexivity|].
    destruct (submission_of (xrayImportOptions x)) as [d|].
    + destruct Hin as (_ & -> & _). split; intros Hf.
      * now rewrite (subpath_xray _ Hf).
      * now rewrite (subpath_other _ Hf).
    + destruct Hin as (-> & _). split; intros Hf.
      * now rewrite (subpath_xray _ Hf).
      * now rewrite (subpath_other _ Hf), append_empty.
Qed.

(** C3, four instances: formats ["junit"] and ["xray"], each on the raw
    and on the multipart path. *)
Lemma import_endpoint_samples :
  requests (trace_of (import (constructor cloud junit_plan) results_xml created))
  = [ Request POST "/import/execution/junit"
        (raw_options (constructor cloud junit_plan) results_xml) ] /\
  requests (trace_of (import (constructor cloud junit_descriptor) results_xml created))
  = [ Request POST "/import/execution/junit/multipart"
        (multipart_options (constructor cloud junit_descriptor)
           (merged junit_descriptor other_project) results_xml) ] /\
  requests (trace_of (import (constructor cloud xray_plan) results_xml created))
  = [ Request POST "/import/execution/"
        (raw_options (constructor cloud xray_plan) results_xml) ] /\
  requests (trace_of (import (constructor cloud xray_descriptor) results_xml created))
  = [ Request POST "/import/execution//multipart"
        (multipart_options (constructor cloud xray_descriptor)
           (merged xray_descriptor summary_only) results_xml) ].
Proof.
  split; [|split; [|split]].
  - destruct (import_endpoint (constructor cloud junit_plan) results_xml created)
      as (_ & H & _).
    apply H. discriminate.
  - destruct (import_endpoint (constructor cloud junit_descriptor) results_xml created)
      as (_ & H & _).
    apply H. discriminate.
  - destruct (import_endpoint (constructor cloud xray_plan) results_xml created)
      as (H & _).
    apply H. reflexivity.
  - destruct (import_endpoint (constructor cloud xray_descriptor) results_xml created)
      as (H & _).
    apply H. reflexivity.
Defined.

(** ** Clients reached from the constructor *)

Lemma constructor_consistent xo io : consistent (constructor xo io).
Proof. unfold consistent, constructor. destruct (xrayServer xo); split; reflexivity. Qed.

Lemma import_client x data r :
  let x' := client_of (import x data r) in
  gotClient x' = gotClient x /\ xrayOptions x' = xrayOptions x /\
  searchParams x' = searchParams x /\
  elements (xrayImportOptions x') = elements (xrayImportOptions x).
Proof.
  cbv zeta. pose proof (import_outcome x data r) as H. cbv zeta in H.
  destruct (submission_of (xrayImportOptions x)) as [d|];
    destruct H as [-> _]; auto.
Qed.

Lemma auth_client x r :
  let x' := client_of (auth x r) in
  Got.searchParams_of (gotClient x') = Got.searchParams_of (gotClient x) /\
  xrayOptions x' = xrayOptions x /\
  searchParams x' = searchParams x /\
  xrayImportOptions x' = xrayImportOptions x.
Proof.
  unfold auth, client_of. cbv zeta.
  destruct (xrayServer (xrayOptions x)), r;
    cbn [fst snd gotClient with_gotClient xrayOptions searchParams xrayImportOptions];
    auto.
  unfold Got.extend. rewrite searchParams_of_merge. cbn [fold_left]. auto.
Qed.

Lemma step_consistent x c : consistent x -> consistent (fst (step x c)).
Proof.
  unfold consistent. intros [H1 H2]. destruct c as [r|data r|k]; cbn [step].
  - pose proof (auth_client x r) as H. cbv zeta in H. unfold client_of in H.
    destruct (auth x r) as [[x' t] res]. cbn [fst snd] in *.
    destruct H as (-> & _ & -> & ->). auto.
  - pose proof (import_client x data r) as H. cbv zeta in H. unfold client_of in H.
    destruct (import x data r) as [[x' t] res]. cbn [fst snd] in *.
    destruct H as (-> & _ & -> & ->). auto.
  - cbn. auto.
Qed.

Lemma run_consistent cs : forall x, consistent x -> consistent (fst (run x cs)).
Proof.
  induction cs as [|c cs IH]; intros x Hx; cbn [run]; [assumption|].
  pose proof (step_consistent x c Hx) as Hs.
  destruct (step x c) as [x' t]. cbn [fst] in Hs.
  specialize (IH x' Hs). destruct (run x' cs) as [x'' t']. assumption.
Qed.

(** ** Query parameters and the two paths *)

Lemma merged_correlation io d k s :
  snd (updateTestExecJson io d) = Normal tt ->
  In (k, s) (correlation io) ->
  peek (own "xrayFields" (merged io d)) k = JStr s.
Proof.
  unfold merged. rewrite updateTestExecJson_run.
  destruct (project_part (projectKey io) (own "fields" d)) as [f|]; cbv zeta;
    [|discriminate].
  destruct (xray_part io (own "xrayFields" d)) as [x'|] eqn:Ex; cbn [fst snd];
    [|discriminate].
  intros _ Hin. rewrite own_assign_same. unfold xray_part in Ex.
  pose proof (put_all_in _ _ _ _ _ (correlation_keys_NoDup io) Ex Hin) as H.
  unfold entry in H. unfold peek, own. now rewrite H.
Qed.

(** C10: on every client built by the constructor and used through its
    methods, a multipart request carries no query parameters, only the
    form of three parts ([info]: the merged descriptor, [results]: the
    result bytes as text, [testInfo]: the project key alone), and the
    non-empty correlation fields are in the merged descriptor's
    [xrayFields]; a raw-body request carries the query parameters built
    by [createSearchParams] and the result bytes. *)
Theorem query_parameters_on_raw_path_only xo io cs data r m url options :
  let x := fst (run (constructor xo io) cs) in
  let io' := xrayImportOptions x in
  In (Request m url options) (trace_of (import x data r)) ->
  match submission_of io' with
  | Multipart d =>
      Got.searchParams_of options = None /\
      (exists info results testInfo,
         Got.body_of options = Some (Form [info; results; testInfo]) /\
         content info = Stringified (JObj (merged io' d)) /\
         content results = Decoded data /\
         content testInfo =
           Stringified
             (JObj [("fields",
                     JObj [("project", JObj [("key", JStr (projectKey io'))])])])) /\
      (forall k s, In (k, s) (correlation io') ->
         peek (own "xrayFields" (merged io' d)) k = JStr s)
  | RawBody =>
      Got.searchParams_of options = Some (elements io') /\
      Got.body_of options = Some (Raw data)
  end.
Proof.
  cbv zeta. intros Hin.
  pose proof (run_consistent cs _ (constructor_consistent xo io)) as [Hq Hs].
  apply import_request in Hin. cbv zeta in Hin. destruct Hin as [_ Hin].
  destruct (submission_of (xrayImportOptions (fst (run (constructor xo io) cs))))
    as [d|].
  - destruct Hin as (Hu & _ & ->). unfold multipart_options.
    rewrite searchParams_of_merge, body_of_merge. cbn [fold_left].
    split; [exact Hq|]. split.
    + do 3 eexists. split; [reflexivity|]. cbn. auto.
    + intros k s. apply merged_correlation. now rewrite Hu.
  - destruct Hin as (_ & ->). unfold raw_options.
    rewrite searchParams_of_merge, body_of_merge. cbn [fold_left].
    now rewrite Hs.
Qed.

(** C10, an instance: a descriptor and no execution key, after [auth]. *)
Lemma multipart_request_of_descriptor :
  In (Request POST "/import/execution/junit/multipart"
        (multipart_options
           (fst (run (constructor cloud junit_descriptor) [Auth (Responded "abc123")]))
           (merged junit_descriptor other_project) results_xml))
     (trace_of
        (import
           (fst (run (constructor cloud junit_descriptor) [Auth (Responded "abc123")]))
           results_xml created)) /\
  Got.searchParams_of
    (multipart_options
       (fst (run (constructor cloud junit_descriptor) [Auth (Responded "abc123")]))
       (merged junit_descriptor other_project) results_xml) = None /\
  peek (own "xrayFields" (merged junit_descriptor other_project)) "testPlanKey"
    = JStr "PRJ-7".
Proof.
  assert (H : In (Request POST "/import/execution/junit/multipart"
        (multipart_options
           (fst (run (constructor cloud junit_descriptor) [Auth (Responded "abc123")]))
           (merged junit_descriptor other_project) results_xml))
     (trace_of
        (import
           (fst (run (constructor cloud junit_descriptor) [Auth (Responded "abc123")]))
           results_xml created))).
  { right. left. reflexivity. }
  split; [exact H|].
  pose proof (query_parameters_on_raw_path_only cloud junit_descriptor
                [Auth (Responded "abc123")] results_xml created _ _ _ H) as Hq.
  cbv zeta in Hq.
  change (submission_of
            (xrayImportOptions
               (fst (run (constructor cloud junit_descriptor)
                       [Auth (Responded "abc123")]))))
    with (Multipart other_project) in Hq.
  cbv iota beta in Hq.
  destruct Hq as (Hs & _ & Hx). split; [exact Hs|].
  apply Hx. left. reflexivity.
Defined.

(** ** The bearer token *)

Lemma lookup_merge_headers_other n extra : forall defaults,
  ~ In n (map fst extra) ->
  lookup n (Got.merge_headers defaults extra) = lookup n defaults.
Proof.
  unfold Got.merge_headers.
  induction extra as [|[k v] extra IH]; intros defaults Hn; cbn [fold_left];
    [reflexivity|].
  cbn [map fst In] in Hn. rewrite IH by tauto. cbn [fst snd].
  apply lookup_assign_other. intros ->. tauto.
Qed.

Lemma import_request_authorization x data r m url options :
  In (Request m url options) (trace_of (import x data r)) ->
  authorization options = authorization (gotClient x).
Proof.
  intros Hin. apply import_request in Hin. cbv zeta in Hin. destruct Hin as [_ Hin].
  destruct (submission_of (xrayImportOptions x)) as [d|].
  - destruct Hin as (_ & _ & ->). unfold authorization, multipart_options.
    now rewrite headers_of_merge.
  - destruct Hin as (_ & ->). unfold authorization, raw_options.
    rewrite headers_of_merge. cbn [fold_left].
    apply lookup_merge_headers_other. cbn. intros [H|[]]. discriminate.
Qed.

Lemma auth_request_authorization x r m url options :
  In (Request m url options) (trace_of (auth x r)) ->
  authorization options = authorization (gotClient x).
Proof.
  unfold auth, trace_of.
  destruct (xrayServer (xrayOptions x)), r; cbn [fst snd In];
    intros H; decompose [or] H; try discriminate; try contradiction;
    match goal with E : Request _ _ _ = Request _ _ _ |- _ =>
      injection E as <- <- <- end;
    unfold authorization; now rewrite headers_of_merge.
Qed.

Lemma step_request_authorization x c m url options :
  In (Request m url options) (snd (step x c)) ->
  authorization options = authorization (gotClient x).
Proof.
  destruct c as [r|data r|k]; cbn [step].
  - pose proof (auth_request_authorization x r m url options) as H.
    unfold trace_of in H. destruct (auth x r) as [[x' t] res]. exact H.
  - pose proof (import_request_authorization x data r m url options) as H.
    unfold trace_of in H. destruct (import x data r) as [[x' t] res]. exact H.
  - contradiction.
Qed.

Lemma step_keeps_client x c :
  is_auth c = false -> gotClient (fst (step x c)) = gotClient x.
Proof.
  destruct c as [r|data r|k]; cbn [is_auth step]; [discriminate| |reflexivity].
  intros _. pose proof (import_client x data r) as H. cbv zeta in H.
  unfold client_of in H. destruct (import x data r) as [[x' t] res]. tauto.
Qed.

Lemma run_request_authorization cs : forall x c m url options,
  Forall (fun c => is_auth c = false) cs ->
  In (Request m url options) (snd (run x (cs ++ [c]))) ->
  authorization options = authorization (gotClient x).
Proof.
  induction cs as [|c0 cs IH]; intros x c m url options Hcs Hin.
  - cbn [app run] in Hin.
    pose proof (step_request_authorization x c m url options) as Hs.
    destruct (step x c) as [x' t]. cbn [fst snd] in *.
    rewrite app_nil_r in Hin. auto.
  - inversion Hcs as [|? ? Hc0 Hcs']; subst. cbn [app run] in Hin.
    pose proof (step_request_authorization x c0 m url options) as Hs.
    pose proof (step_keeps_client x c0 Hc0) as Hk.
    destruct (step x c0) as [x' t]. cbn [fst snd] in *.
    specialize (IH x' c m url options Hcs').
    destruct (run x' (cs ++ [c])) as [x'' t']. cbn [snd] in *.
    apply in_app_iff in Hin. destruct Hin as [Hin|Hin]; [auto|].
    rewrite <- Hk. auto.
Qed.

Lemma authorization_extend g token :
  authorization
    (Got.extend g [ Got.headers [("Authorization", "Bearer " ++ token)] ])
  = Some ("Bearer " ++ token).
Proof.
  unfold authorization, Got.extend. rewrite headers_of_merge.
  cbn [fold_left Got.merge_headers fst snd]. apply lookup_assign_same.
Qed.

(** C8: in cloud mode, when [auth] receives a token, the token is
    registered as a secret and every request the client issues afterwards
    (by any number of [import] and [updateTestExecKey] calls, and by the
    call that follows them, whichever it is) carries the header
    [Authorization: Bearer <token>]. *)
Theorem auth_installs_bearer x token cs c :
  xrayServer (xrayOptions x) = false ->
  Forall (fun c => is_auth c = false) cs ->
  let after := auth x (Responded token) in
  result_of after = Normal tt /\
  In (CoreSetSecret token) (trace_of after) /\
  authorization (gotClient (client_of after)) = Some ("Bearer " ++ token) /\
  forall m url options,
    In (Request m url options) (snd (run (client_of after) (cs ++ [c]))) ->
    authorization options = Some ("Bearer " ++ token).
Proof.
  intros Hcloud Hcs. cbv zeta.
  assert (Ha : authorization (gotClient (client_of (auth x (Responded token))))
               = Some ("Bearer " ++ token)).
  { unfold auth, client_of. rewrite Hcloud. cbn [fst snd gotClient with_gotClient].
    apply authorization_extend. }
  repeat split.
  - unfold auth, result_of. now rewrite Hcloud.
  - unfold auth, trace_of. rewrite Hcloud. cbn. auto.
  - exact Ha.
  - intros m url options Hin. rewrite <- Ha.
    eapply run_request_authorization; eauto.
Qed.

(** C8, an instance: token ["abc123"], then two imports. *)
Lemma auth_installs_bearer_abc123 :
  xrayServer (xrayOptions (constructor cloud junit_plan)) = false /\
  Forall (fun c => is_auth c = false)
    [Import results_xml created; UpdateTestExecKey "EXEC-123"] /\
  In (CoreSetSecret "abc123")
     (trace_of (auth (constructor cloud junit_plan) (Responded "abc123"))) /\
  forall m url options,
    In (Request m url options)
       (snd (run (client_of (auth (constructor cloud junit_plan) (Responded "abc123")))
               ([Import results_xml created; UpdateTestExecKey "EXEC-123"]
                ++ [Import results_xml created]))) ->
    authorization options = Some "Bearer abc123".
Proof.
  assert (Hc : xrayServer (xrayOptions (constructor cloud junit_plan)) = false)
    by reflexivity.
  assert (Hcs : Forall (fun c => is_auth c = false)
                  [Import results_xml created; UpdateTestExecKey "EXEC-123"])
    by (repeat constructor).
  split; [exact Hc|]. split; [exact Hcs|].
  destruct (auth_installs_bearer (constructor cloud junit_plan) "abc123"
              [Import results_xml created; UpdateTestExecKey "EXEC-123"]
              (Import results_xml created) Hc Hcs) as (_ & Hs & _ & Hr).
  split; [exact Hs|exact Hr].
Defined.

(** ** The response *)

(** C1 at the body [{"id": 7}]: the property read [body.key] gives
    [undefined] and throws nothing, so the handler of lines 186-193 (and
    211-218) is not entered: no warning is emitted and [import] resolves
    to [undefined], not to the empty string. *)
Theorem import_body_without_key x data :
  let after := import x data (Responded (JObj [("id", JNum 7)])) in
  result_of after <> Normal (JStr "") /\
  (forall w, ~ In (CoreWarning w) (trace_of after)) /\
  (result_of after = Normal JUndefined \/
   exists e, result_of after = Throw e /\ trace_of after = []).
Proof.
  cbv zeta.
  pose proof (import_outcome x data (Responded (JObj [("id", JNum 7)]))) as H.
  cbv zeta in H.
  destruct (submission_of (xrayImportOptions x)) as [d|].
  - destruct H as [_ H].
    destruct (snd (updateTestExecJson (xrayImportOptions x) d)).
    + destruct H as [-> ->]. cbn. repeat split; [discriminate| |now left].
      intros w [H|[H|[]]]; discriminate H.
    + destruct H as [-> ->]. repeat split; [discriminate|intros w []|eauto].
  - destruct H as (_ & -> & ->). cbn. repeat split; [discriminate| |now left].
    intros w [H|[H|[]]]; discriminate H.
Qed.

(** The spec's two response scenarios on the raw path, and a [null]
    body on each path. *)
Example import_key_EXEC_123 :
  result_of (import (constructor cloud junit_plan) results_xml created)
  = Normal (JStr "EXEC-123").
Proof. reflexivity. Qed.

Example import_id_7 :
  import (constructor cloud junit_plan) results_xml (Responded (JObj [("id", JNum 7)]))
  = (constructor cloud junit_plan,
     [ CoreDebug "Using endpoint: https://xray.cloud.xpand-it.com/api/v1/import/execution/junit";
       Request POST "/import/execution/junit"
         (raw_options (constructor cloud junit_plan) results_xml) ],
     Normal JUndefined).
Proof. reflexivity. Qed.

Example import_null :
  import (constructor cloud junit_plan) results_xml (Responded JNull)
  = (constructor cloud junit_plan,
     [ CoreDebug "Using endpoint: https://xray.cloud.xpand-it.com/api/v1/import/execution/junit";
       Request POST "/import/execution/junit"
         (raw_options (constructor cloud junit_plan) results_xml) ],
     Throw (TypeError "Converting circular structure to JSON")).
Proof. reflexivity. Qed.

Example import_null_multipart :
  trace_of (import (constructor cloud junit_descriptor) results_xml (Responded JNull))
  = [ CoreDebug "Using multipart endpoint: https://xray.cloud.xpand-it.com/api/v1/import/execution/junit/multipart";
      Request POST "/import/execution/junit/multipart"
        (multipart_options (constructor cloud junit_descriptor)
           (merged junit_descriptor other_project) results_xml);
      CoreWarning (Template mismatch (Stringified JNull)) ] /\
  result_of (import (constructor cloud junit_descriptor) results_xml (Responded JNull))
  = Normal (JStr "").
Proof. split; reflexivity. Qed.

(** ** Further properties *)

(** X1: what [import] does with an answered POST.  On the multipart
    path, if [updateTestExecJson] throws, [import] rejects with that
    exception and emits nothing; otherwise, on either path, it issues its
    one request and resolves to whatever [body.key] evaluates to, without
    a warning.  Only a body that is [null] or [undefined] makes the
    property read throw: the multipart path then emits one warning, with
    the stringified body, and resolves to the empty string; the raw path
    rejects with a TypeError and emits no warning, because its handler
    stringifies the response object instead of the falsy body. *)
Theorem import_normalizes_response x data body :
  let io := xrayImportOptions x in
  let after := import x data (Responded body) in
  let issues url options :=
    requests (trace_of after) = [Request POST url options] in
  (get_prop body "key" = Normal (peek body "key") \/
   (body = JUndefined \/ body = JNull) /\
   exists e, get_prop body "key" = Throw e) /\
  match submission_of io with
  | Multipart d =>
      match snd (updateTestExecJson io d) with
      | Throw e => result_of after = Throw e /\ trace_of after = []
      | Normal _ =>
          issues ("/import/execution/" ++ subpath (testFormat io) ++ "/multipart")
            (multipart_options x (merged io d) data) /\
          match get_prop body "key" with
          | Normal key =>
              result_of after = Normal key /\
              forall w, ~ In (CoreWarning w) (trace_of after)
          | Throw _ =>
              result_of after = Normal (JStr "") /\
              forall w, In (CoreWarning w) (trace_of after) <->
                        w = Template mismatch (Stringified body)
          end
      end
  | RawBody =>
      issues ("/import/execution/" ++ subpath (testFormat io)) (raw_options x data) /\
      match get_prop body "key" with
      | Normal key =>
          result_of after = Normal key /\
          forall w, ~ In (CoreWarning w) (trace_of after)
      | Throw _ =>
          (exists msg, result_of after = Throw (TypeError msg)) /\
          forall w, ~ In (CoreWarning w) (trace_of after)
      end
  end.
Proof.
  cbv zeta.
  pose proof (import_outcome x data (Responded body)) as Ho. cbv zeta in Ho.
  pose proof (import_requests x data (Responded body)) as Hq. cbv zeta in Hq.
  split.
  { destruct body; cbn; eauto. }
  destruct (submission_of (xrayImportOptions x)) as [d|].
  - destruct Ho as [_ Ho].
    destruct (snd (updateTestExecJson (xrayImportOptions x) d)).
    + split; [exact Hq|]. destruct Ho as [-> ->].
      cbn [mismatch_warning settled andb].
      destruct (get_prop body "key"); split; try reflexivity.
      * intros w [H|[H|[]]]; discriminate H.
      * intros w. split.
        -- intros [H|[H|[H|[]]]]; try discriminate H. now injection H as <-.
        -- intros ->. right. right. left. reflexivity.
    + destruct Ho as [-> ->]. auto.
  - split; [exact Hq|]. destruct Ho as (_ & -> & ->).
    cbn [mismatch_warning settled].
    destruct (get_prop body "key") eqn:E.
    + split; [reflexivity|]. intros w [H|[H|[]]]; discriminate H.
    + assert (T : truthy body = false)
        by (destruct body; try discriminate E; reflexivity).
      rewrite T. cbn [andb negb app]. split; [eauto|].
      intros w [H|[H|[]]]; discriminate H.
Qed.

(** A truthy value that is no object cannot take the [project] or the
    [key] property. *)
Lemma project_part_rejects pk f :
  absent_or_object f && absent_or_object (peek f "project") = false ->
  exists msg, project_part pk f = Throw (TypeError msg).
Proof.
  unfold project_part, absent_or_object, ensured, peek.
  destruct f as [| |[]|n|s|es ps|ps]; cbn; try discriminate; eauto.
  - destruct (Z.eqb n 0); cbn; [discriminate|eauto].
  - destruct (String.eqb s ""); cbn; [discriminate|eauto].
  - destruct (own "project" ps) as [| |[]|n|s|es' ps'|ps']; cbn;
      try discriminate; eauto.
    + destruct (Z.eqb n 0); cbn; [discriminate|eauto].
    + destruct (String.eqb s ""); cbn; [discriminate|eauto].
  - destruct (own "project" ps) as [| |[]|n|s|es' ps'|ps']; cbn;
      try discriminate; eauto.
    + destruct (Z.eqb n 0); cbn; [discriminate|eauto].
    + destruct (String.eqb s ""); cbn; [discriminate|eauto].
Qed.

(** X2: a descriptor whose [fields], or [fields.project], is a truthy value
    that is no object makes [updateTestExecJson] throw a TypeError and
    leaves the descriptor as it was. *)
Theorem updateTestExecJson_rejects_non_object o d :
  absent_or_object (own "fields" d)
  && absent_or_object (peek (own "fields" d) "project") = false ->
  exists msg, updateTestExecJson o d = (d, Throw (TypeError msg)).
Proof.
  intros H. destruct (project_part_rejects (projectKey o) _ H) as (msg & Hm).
  exists msg. now rewrite updateTestExecJson_run, Hm.
Qed.

(** X2, an instance: [fields] is the string ["abc"]. *)
Lemma updateTestExecJson_rejects_text :
  absent_or_object (own "fields" fields_is_text)
  && absent_or_object (peek (own "fields" fields_is_text) "project") = false /\
  exists msg,
    updateTestExecJson junit_plan fields_is_text = (fields_is_text, Throw (TypeError msg)).
Proof.
  split; [reflexivity|].
  apply updateTestExecJson_rejects_non_object. reflexivity.
Defined.

(** X3: on every client built by the constructor and used through its
    methods, [searchParams] is what [createSearchParams] builds from the
    current options, and the instance defaults carry no query
    parameters. *)
Theorem searchParams_follow_options xo io cs :
  consistent (fst (run (constructor xo io) cs)).
Proof. apply run_consistent, constructor_consistent. Qed.

(** * The client over its calls *)

(** ** Invariants along a sequence of calls *)

Lemma run_invariant (P : Xray -> Prop) (Q : event -> Prop) (ok : call -> bool) :
  (forall x c, P x -> ok c = true ->
     P (fst (step x c)) /\ forall e, In e (snd (step x c)) -> Q e) ->
  forall cs x, P x -> forallb ok cs = true ->
    P (fst (run x cs)) /\ forall e, In e (snd (run x cs)) -> Q e.
Proof.
  intros Hstep. induction cs as [|c cs IH]; intros x Hx Hcs; cbn [run].
  - split; [assumption|]. intros e [].
  - cbn [forallb] in Hcs. apply andb_prop in Hcs. destruct Hcs as [Hc Hcs].
    destruct (Hstep x c Hx Hc) as [Hx' Hq].
    destruct (step x c) as [x' t]. cbn [fst snd] in *.
    destruct (IH x' Hx' Hcs) as [Hx'' Hq'].
    destruct (run x' cs) as [x'' t']. cbn [fst snd] in *.
    split; [assumption|]. intros e He. apply in_app_iff in He.
    destruct He; auto.
Qed.

Lemma step_xrayOptions x c : xrayOptions (fst (step x c)) = xrayOptions x.
Proof.
  destruct c as [r|data r|k]; cbn [step].
  - pose proof (auth_client x r) as H. cbv zeta in H. unfold client_of in H.
    destruct (auth x r) as [[x' t] res]. tauto.
  - pose proof (import_client x data r) as H. cbv zeta in H. unfold client_of in H.
    destruct (import x data r) as [[x' t] res]. tauto.
  - reflexivity.
Qed.

Lemma import_no_secret x data r s :
  ~ In (CoreSetSecret s) (trace_of (import x data r)).
Proof.
  assert (Hw : forall whole, ~ In (CoreSetSecret s) (mismatch_warning whole r)).
  { intros whole.
    destruct (mismatch_warning_shape whole r) as [->|[w ->]];
      [intros []|intros [H|[]]; discriminate H]. }
  pose proof (import_outcome x data r) as H. cbv zeta in H.
  destruct (submission_of (xrayImportOptions x)) as [d|].
  - destruct H as [_ H].
    destruct (snd (updateTestExecJson (xrayImportOptions x) d));
      destruct H as [-> _]; [|intros []].
    rewrite in_app_iff. intros [[H|[H|[]]]|H]; try discriminate H.
    revert H. apply Hw.
  - destruct H as (_ & -> & _).
    rewrite in_app_iff. intros [[H|[H|[]]]|H]; try discriminate H.
    revert H. apply Hw.
Qed.

Lemma import_frame x data r :
  let x' := client_of (import x data r) in
  xrayOptions x' = xrayOptions x /\ xrayProtocol x' = xrayProtocol x /\
  gotClient x' = gotClient x /\ searchParams x' = searchParams x /\
  token x' = token x /\
  xrayImportOptions x' =
    match submission_of (xrayImportOptions x) with
    | Multipart d =>
        with_testExecutionJson (xrayImportOptions x)
          (Some (merged (xrayImportOptions x) d))
    | RawBody => xrayImportOptions x
    end.
Proof.
  pose proof (import_outcome x data r) as H. cbv zeta in *.
  destruct (submission_of (xrayImportOptions x)) as [d|].
  - destruct H as [-> _]. repeat split.
  - destruct H as [-> _]. repeat split.
Qed.

Lemma auth_frame x r :
  let x' := client_of (auth x r) in
  xrayOptions x' = xrayOptions x /\ xrayProtocol x' = xrayProtocol x /\
  searchParams x' = searchParams x /\ token x' = token x /\
  xrayImportOptions x' = xrayImportOptions x.
Proof.
  unfold auth, client_of. cbv zeta.
  destruct (xrayServer (xrayOptions x)), r; repeat split.
Qed.

(** A step keeps the configuration; it keeps the HTTP client too unless
    it is a cloud [auth] that is answered. *)
Lemma step_frame x c :
  let x' := fst (step x c) in
  xrayOptions x' = xrayOptions x /\ xrayProtocol x' = xrayProtocol x /\
  (xrayServer (xrayOptions x) || negb (gets_token c) = true ->
   gotClient x' = gotClient x).
Proof.
  cbv zeta. destruct c as [r|data r|k]; cbn [step].
  - pose proof (auth_frame x r) as H. pose proof (auth_gotClient x r) as G.
    cbv zeta in H. unfold client_of in H, G.
    destruct (auth x r) as [[x' t] res]. cbn [fst] in *.
    destruct H as (-> & -> & _). repeat split. intros Hok. rewrite G.
    destruct (xrayServer (xrayOptions x)), r; try reflexivity. discriminate Hok.
  - pose proof (import_frame x data r) as H. cbv zeta in H. unfold client_of in H.
    destruct (import x data r) as [[x' t] res]. cbn [fst] in *.
    destruct H as (-> & -> & -> & _). repeat split.
  - repeat split.
Qed.

Lemma step_events x c e :
  In e (snd (step x c)) ->
  match c with
  | Auth r => In e (trace_of (auth x r))
  | Import data r => In e (trace_of (import x data r))
  | UpdateTestExecKey _ => False
  end.
Proof.
  destruct c as [r|data r|k]; cbn [step]; unfold trace_of.
  - destruct (auth x r) as [[x' t] res]. auto.
  - destruct (import x data r) as [[x' t] res]. auto.
  - auto.
Qed.

Lemma constructor_xrayOptions xo io : xrayOptions (constructor xo io) = xo.
Proof. reflexivity. Qed.

(** ** Server mode *)


(** Every event of a run is an event of one call, made on a client that
    a prefix of the run has reached. *)
Lemma run_event cs : forall x e,
  In e (snd (run x cs)) ->
  exists before c rest,
    cs = (before ++ c :: rest)%list /\
    In e (snd (step (fst (run x before)) c)).
Proof.
  induction cs as [|c cs IH]; intros x e; cbn [run]; [intros []|].
  destruct (step x c) as [x' t] eqn:Es.
  destruct (run x' cs) as [x'' t'] eqn:Er. cbn [snd].
  intros He. apply in_app_iff in He. destruct He as [He|He].
  - exists [], c, cs. cbn [run fst app]. rewrite Es. auto.
  - specialize (IH x' e). rewrite Er in IH.
    destruct (IH He) as (b & c' & rest & -> & H).
    exists (c :: b), c', rest. split; [reflexivity|].
    cbn [run]. rewrite Es. destruct (run x' b) as [y u]. exact H.
Qed.



(** ** No authorization before a token *)

Lemma cloud_client xo io cs :
  xrayServer xo = false ->
  forallb (fun c => negb (gets_token c)) cs = true ->
  let x := fst (run (constructor xo io) cs) in
  xrayOptions x = xo /\ gotClient x = gotClient (constructor xo io).
Proof.
  intros Hs Hcs. cbv zeta.
  destruct (run_invariant
              (fun x => xrayOptions x = xo /\
                        gotClient x = gotClient (constructor xo io))
              (fun _ => True) (fun c => negb (gets_token c))) with
    (cs := cs) (x := constructor xo io) as [HP _]; auto.
  intros x c (Hxo & Hg) Hok.
  destruct (step_frame x c) as (Ho & _ & Hg'). split; [|auto].
  rewrite Ho, Hg' by (rewrite Hok; apply orb_true_r). auto.
Qed.

(** X4: on a cloud-mode client built by the constructor, as long as no
    [auth] has been answered, the instance carries no [Authorization]
    header and no [username] or [password] option, and no request goes
    out with any of them: an [import] made before [auth], or after an
    [auth] that failed, is sent unauthenticated. *)
Theorem no_bearer_before_token xo io cs :
  xrayServer xo = false ->
  forallb (fun c => negb (gets_token c)) cs = true ->
  let g := gotClient (fst (run (constructor xo io) cs)) in
  (authorization g = None /\ username_of g = None /\ password_of g = None) /\
  forall m url options,
    In (Request m url options) (snd (run (constructor xo io) cs)) ->
    authorization options = None /\
    username_of options = None /\ password_of options = None.
Proof.
  intros Hs Hcs. cbv zeta.
  assert (Hg : gotClient (constructor xo io) =
               [ Got.responseType "json"; Got.timeout 30000; Got.retry 2;
                 Got.http2 true;
                 Got.prefixUrl "https://xray.cloud.xpand-it.com/api/v1" ]).
  { unfold constructor. rewrite Hs. reflexivity. }
  split.
  - destruct (cloud_client xo io cs Hs Hcs) as [_ ->]. rewrite Hg.
    repeat split.
  - intros m url options Hin.
    destruct (run_event _ _ _ Hin) as (b & c & rest & Hsplit & He).
    assert (Hb : forallb (fun c => negb (gets_token c)) b = true).
    { rewrite Hsplit, forallb_app in Hcs. apply andb_prop in Hcs. tauto. }
    destruct (cloud_client xo io b Hs Hb) as (Hxo & Hc). cbv zeta in *.
    apply step_events in He. destruct c as [r|data r|k]; [| |contradiction].
    + rewrite auth_trace, Hxo, Hs, Hc, Hg in He.
      destruct He as [[= <- <- <-]|He]; [repeat split|].
      destruct r; [destruct He as [He|[]]; discriminate He|destruct He].
    + apply import_request in He. cbv zeta in He. destruct He as [-> He].
      destruct (submission_of _) as [d|].
      * destruct He as (_ & _ & ->). unfold multipart_options.
        rewrite Hc, Hg. repeat split.
      * destruct He as (_ & ->). unfold raw_options.
        rewrite Hc, Hg. repeat split.
Qed.

(** X4, an instance: import, a failed [auth], import again. *)
Lemma no_bearer_before_auth_sample :
  xrayServer cloud = false /\
  forallb (fun c => negb (gets_token c))
    [Import results_xml created; Auth (Failed (RequestError "401"));
     Import results_xml created] = true /\
  forall m url options,
    In (Request m url options)
       (snd (run (constructor cloud junit_plan)
               [Import results_xml created; Auth (Failed (RequestError "401"));
                Import results_xml created])) ->
    authorization options = None /\
    username_of options = None /\ password_of options = None.
Proof.
  split; [reflexivity|]. split; [reflexivity|].
  apply (no_bearer_before_token cloud junit_plan); reflexivity.
Defined.

(** ** Timeouts and retries *)

Lemma transport_defaults_extend_headers g hs :
  transport_defaults g -> transport_defaults (Got.extend g [Got.headers hs]).
Proof.
  unfold transport_defaults, Got.extend.
  rewrite responseType_of_merge, timeout_of_merge, retry_of_merge, http2_of_merge,
    body_of_merge. cbn [fold_left]. auto.
Qed.

Lemma reached_transport_defaults xo io cs :
  transport_defaults (gotClient (fst (run (constructor xo io) cs))).
Proof.
  destruct (run_invariant (fun x => transport_defaults (gotClient x))
              (fun _ => True) (fun _ => true)) with
    (cs := cs) (x := constructor xo io) as [HP _]; auto.
  - intros x c Hx _. split; [|auto].
    destruct c as [r|data r|k]; cbn [step].
    + pose proof (auth_gotClient x r) as G. unfold client_of in G.
      destruct (auth x r) as [[x' t] res]. cbn [fst] in *. rewrite G.
      destruct (xrayServer (xrayOptions x)), r; auto.
      now apply transport_defaults_extend_headers.
    + pose proof (import_frame x data r) as H. cbv zeta in H. unfold client_of in H.
      destruct (import x data r) as [[x' t] res]. cbn [fst] in *.
      destruct H as (_ & _ & -> & _). assumption.
    + assumption.
  - unfold constructor. destruct (xrayServer xo); repeat split.
  - clear. induction cs; simpl; auto.
Qed.

(** X6: every request of a client built by the constructor runs with the
    retry budget 2, JSON responses and HTTP/2 allowed; its timeout is
    60 s when it is a raw-body import and 30 s otherwise (multipart
    imports and both requests of [auth]). *)
Theorem request_timeouts xo io cs m url options :
  In (Request m url options) (snd (run (constructor xo io) cs)) ->
  timeout_of options
  = Some (match Got.body_of options with
          | Some (Raw _) => 60000
          | _ => 30000
          end)%Z /\
  retry_of options = Some 2%Z /\
  responseType_of options = Some "json" /\
  http2_of options = Some true.
Proof.
  intros Hin. destruct (run_event _ _ _ Hin) as (b & c & rest & _ & He).
  pose proof (reached_transport_defaults xo io b) as (Hr & Ht & Hn & Hh & Hb).
  apply step_events in He. destruct c as [r|data r|k]; [| |contradiction].
  - rewrite auth_trace in He.
    destruct (xrayServer _).
    + destruct He as [[= <- <- <-]|[]].
      rewrite timeout_of_merge, retry_of_merge, responseType_of_merge,
        http2_of_merge, body_of_merge. cbn [fold_left]. rewrite Hb. auto.
    + destruct He as [[= <- <- <-]|He].
      * rewrite timeout_of_merge, retry_of_merge, responseType_of_merge,
          http2_of_merge, body_of_merge. cbn [fold_left]. rewrite Hb. auto.
      * destruct r; [destruct He as [He|[]]; discriminate He|contradiction].
  - apply import_request in He. cbv zeta in He. destruct He as [_ He].
    destruct (submission_of _) as [d|].
    + destruct He as (_ & _ & ->). unfold multipart_options.
      rewrite timeout_of_merge, retry_of_merge, responseType_of_merge,
        http2_of_merge, body_of_merge. cbn [fold_left]. auto.
    + destruct He as (_ & ->). unfold raw_options.
      rewrite timeout_of_merge, retry_of_merge, responseType_of_merge,
        http2_of_merge, body_of_merge. cbn [fold_left]. auto.
Qed.

(** X6, an instance: a raw-body import. *)
Lemma request_timeouts_raw_sample :
  In (Request POST "/import/execution/junit"
        (raw_options (constructor cloud junit_plan) results_xml))
     (snd (run (constructor cloud junit_plan) [Import results_xml created])) /\
  timeout_of (raw_options (constructor cloud junit_plan) results_xml)
  = Some 60000%Z.
Proof.
  assert (H : In (Request POST "/import/execution/junit"
                    (raw_options (constructor cloud junit_plan) results_xml))
                 (snd (run (constructor cloud junit_plan)
                         [Import results_xml created]))).
  { right. left. reflexivity. }
  split; [exact H|].
  destruct (request_timeouts _ _ _ _ _ _ H) as [Ht _]. exact Ht.
Defined.

(** ** The trace of one [import] *)

(** X7: one [import] emits nothing at all exactly when it is on the
    multipart path and [updateTestExecJson] throws; otherwise it emits a
    debug line ending in the prefix URL and the endpoint, then one POST
    to that endpoint, then at most one warning, and nothing else. *)
Theorem import_trace_shape x data r :
  let io := xrayImportOptions x in
  let t := trace_of (import x data r) in
  (t = [] <->
   exists d, submission_of io = Multipart d /\
             snd (updateTestExecJson io d) <> Normal tt) /\
  (t = [] \/
   exists label url options tail,
     t = CoreDebug (label ++ prefix_of (gotClient x) ++ url)
         :: Request POST url options :: tail /\
     (tail = [] \/ exists w, tail = [CoreWarning w])).
Proof.
  cbv zeta. pose proof (import_outcome x data r) as H. cbv zeta in H.
  destruct (submission_of (xrayImportOptions x)) as [d|].
  - destruct H as [_ H].
    destruct (snd (updateTestExecJson (xrayImportOptions x) d)) as [[]|e] eqn:Eu.
    + destruct H as [-> _]. split.
      * split; [discriminate|]. intros (d' & [= <-] & Hn). now rewrite Eu in Hn.
      * right. exists "Using multipart endpoint: ". do 3 eexists.
        split; [reflexivity|]. apply mismatch_warning_shape.
    + destruct H as [-> _]. split; [|now left].
      split; [|reflexivity]. intros _. exists d. split; [reflexivity|].
      rewrite Eu. discriminate.
  - destruct H as (_ & -> & _). split.
    + split; [discriminate|]. intros (d' & Hd & _). discriminate Hd.
    + right. exists "Using endpoint: ". do 3 eexists.
      split; [reflexivity|]. apply mismatch_warning_shape.
Qed.

(** ** A request that fails *)

(** X8: when the POST fails, [import] rejects with the error of the
    request and emits no warning; the client after the call and the
    request issued are the same whatever the reply is. *)
Theorem import_failed_request x data e :
  let after := import x data (Failed e) in
  (forall w, ~ In (CoreWarning w) (trace_of after)) /\
  (trace_of after <> [] -> result_of after = Throw e) /\
  (forall r, client_of (import x data r) = client_of after /\
             requests (trace_of (import x data r)) = requests (trace_of after)).
Proof.
  cbv zeta. pose proof (import_outcome x data (Failed e)) as H. cbv zeta in H.
  assert (Hreq : forall whole r, requests (mismatch_warning whole r) = []).
  { intros whole r. destruct (mismatch_warning_shape whole r) as [->|[w ->]];
      reflexivity. }
  destruct (submission_of (xrayImportOptions x)) as [d|] eqn:Es.
  - destruct H as [Hc H].
    destruct (snd (updateTestExecJson (xrayImportOptions x) d)) as [[]|e'] eqn:Eu.
    + destruct H as [Ht Hr]. rewrite Ht, Hr. cbn [mismatch_warning app settled].
      repeat split.
      * intros w [H|[H|[]]]; discriminate H.
      * pose proof (import_outcome x data r) as H'. cbv zeta in H'.
        rewrite Es in H'. destruct H' as [-> _]. now rewrite Hc.
      * pose proof (import_outcome x data r) as H'. cbv zeta in H'.
        rewrite Es, Eu in H'. destruct H' as (_ & -> & _).
        unfold requests. rewrite filter_app. fold (requests (mismatch_warning false r)).
        rewrite Hreq. reflexivity.
    + destruct H as [Ht Hr]. rewrite Ht. repeat split.
      * intros w [].
      * intros Hn. now contradiction Hn.
      * pose proof (import_outcome x data r) as H'. cbv zeta in H'.
        rewrite Es in H'. destruct H' as [-> _]. now rewrite Hc.
      * pose proof (import_outcome x data r) as H'. cbv zeta in H'.
        rewrite Es, Eu in H'. destruct H' as (_ & -> & _). reflexivity.
  - destruct H as (Hc & Ht & Hr). rewrite Ht, Hr, Hc.
    cbn [mismatch_warning app settled]. repeat split.
    + intros w [H|[H|[]]]; discriminate H.
    + pose proof (import_outcome x data r) as H'. cbv zeta in H'.
      rewrite Es in H'. now destruct H' as [-> _].
    + pose proof (import_outcome x data r) as H'. cbv zeta in H'.
      rewrite Es in H'. destruct H' as (_ & -> & _).
      unfold requests. rewrite filter_app. fold (requests (mismatch_warning true r)).
      rewrite Hreq. reflexivity.
Qed.

(** X8, an instance: a timeout. *)
Lemma import_failed_sample :
  trace_of (import (constructor cloud junit_plan) results_xml
              (Failed (RequestError "timeout"))) <> [] /\
  result_of (import (constructor cloud junit_plan) results_xml
               (Failed (RequestError "timeout")))
  = Throw (RequestError "timeout").
Proof.
  assert (H : trace_of (import (constructor cloud junit_plan) results_xml
                          (Failed (RequestError "timeout"))) <> [])
    by discriminate.
  split; [exact H|].
  destruct (import_failed_request (constructor cloud junit_plan) results_xml
              (RequestError "timeout")) as (_ & Hr & _).
  exact (Hr H).
Defined.

(** ** Importing again *)

Lemma updateTestExecJson_ignores_descriptor io d' d :
  updateTestExecJson (with_testExecutionJson io d') d = updateTestExecJson io d.
Proof. reflexivity. Qed.

Lemma merged_again io d' d :
  merged (with_testExecutionJson io d') (merged io d) = merged io d /\
  snd (updateTestExecJson (with_testExecutionJson io d') (merged io d))
  = snd (updateTestExecJson io d).
Proof.
  unfold merged at 1. rewrite !updateTestExecJson_ignores_descriptor.
  now rewrite !updateTestExecJson_twice.
Qed.

(** X9: [import] changes at most the stored descriptor (every other
    field of the client, and every other import option, is as before;
    the descriptor, if replaced, is the merged one), and only once: on
    the client an import leaves behind, a further import leaves the
    client as it is, and emits and returns what it would have on the
    original client (the merge is idempotent, so the [info] part is the
    same). *)
Theorem import_again x data r data' r' :
  let io := xrayImportOptions x in
  let x' := client_of (import x data r) in
  (xrayOptions x' = xrayOptions x /\ xrayProtocol x' = xrayProtocol x /\
   gotClient x' = gotClient x /\ searchParams x' = searchParams x /\
   token x' = token x /\
   (xrayImportOptions x' = io \/
    exists d, testExecutionJson io = Some d /\
              xrayImportOptions x'
              = with_testExecutionJson io (Some (merged io d)))) /\
  client_of (import x' data' r') = x' /\
  trace_of (import x' data' r') = trace_of (import x data' r') /\
  result_of (import x' data' r') = result_of (import x data' r').
Proof.
  cbv zeta. split.
  { pose proof (import_frame x data r) as H. cbv zeta in H.
    destruct H as (H1 & H2 & H3 & H4 & H5 & H6). repeat split; auto.
    destruct (submission_of (xrayImportOptions x)) as [d|] eqn:Es; [|now left].
    right. exists d. apply submission_of_Multipart in Es. tauto. }
  pose proof (import_outcome x data r) as H1. cbv zeta in H1.
  pose proof (import_outcome x data' r') as H2. cbv zeta in H2.
  destruct (submission_of (xrayImportOptions x)) as [d|] eqn:Es.
  - destruct H1 as [Hc _]. rewrite Hc.
    set (io := xrayImportOptions x) in *.
    set (x' := with_importOptions x (with_testExecutionJson io (Some (merged io d)))).
    pose proof (import_outcome x' data' r') as H3. cbv zeta in H3.
    assert (Es' : submission_of (xrayImportOptions x') = Multipart (merged io d)).
    { apply submission_of_Multipart in Es. destruct Es as [_ Ha].
      apply submission_of_Multipart. split; [reflexivity|exact Ha]. }
    rewrite Es' in H3.
    change (xrayImportOptions x')
      with (with_testExecutionJson io (Some (merged io d))) in H3.
    destruct (merged_again io (Some (merged io d)) d) as [Hm Hs].
    rewrite Hm, Hs in H3.
    destruct H3 as [Hc3 H3]. destruct H2 as [_ H2].
    split; [exact Hc3|].
    destruct (snd (updateTestExecJson io d)).
    + destruct H2 as [-> ->]. destruct H3 as [-> ->].
      subst x'. unfold multipart_options, prefix_of. split; reflexivity.
    + destruct H2 as [-> ->]. destruct H3 as [-> ->].
      subst x'. unfold multipart_options, prefix_of. split; reflexivity.
  - destruct H1 as [-> _]. destruct H2 as [-> _]. repeat split.
Qed.

(** ** An execution key, then an import *)

(** X10: after [updateTestExecKey] with a non-empty key, [import] takes
    the raw-body path even if a descriptor is stored (the descriptor is
    kept, and not merged): it issues exactly one request, which posts
    the bytes to [/import/execution/{format}] with [testExecKey] among
    the query parameters, and the client is unchanged. *)
Theorem import_after_updateTestExecKey x k data r :
  k <> "" ->
  let x' := updateTestExecKey x k in
  submission_of (xrayImportOptions x') = RawBody /\
  testExecutionJson (xrayImportOptions x')
  = testExecutionJson (xrayImportOptions x) /\
  client_of (import x' data r) = x' /\
  (exists options,
     requests (trace_of (import x' data r))
     = [ Request POST
           ("/import/execution/" ++ subpath (testFormat (xrayImportOptions x)))
           options ] /\
     Got.body_of options = Some (Raw data) /\
     exists ps, Got.searchParams_of options = Some ps /\ In ("testExecKey", k) ps) /\
  forall m url options,
    In (Request m url options) (trace_of (import x' data r)) ->
    url = "/import/execution/" ++ subpath (testFormat (xrayImportOptions x)) /\
    Got.body_of options = Some (Raw data) /\
    exists ps, Got.searchParams_of options = Some ps /\ In ("testExecKey", k) ps.
Proof.
  intros Hk. cbv zeta.
  assert (Es : submission_of (xrayImportOptions (updateTestExecKey x k)) = RawBody).
  { apply submission_of_RawBody. right. intros [H|H]; [discriminate H|].
    injection H as ->. now contradiction Hk. }
  split; [exact Es|]. split; [reflexivity|].
  pose proof (import_outcome (updateTestExecKey x k) data r) as Ho.
  cbv zeta in Ho. rewrite Es in Ho. destruct Ho as (Hc & _ & _).
  split; [exact Hc|].
  assert (Hopt : Got.body_of (raw_options (updateTestExecKey x k) data)
                 = Some (Raw data) /\
                 exists ps,
                   Got.searchParams_of (raw_options (updateTestExecKey x k) data)
                   = Some ps /\ In ("testExecKey", k) ps).
  { unfold raw_options.
    rewrite body_of_merge, searchParams_of_merge. cbn [fold_left].
    split; [reflexivity|]. eexists. split; [reflexivity|].
    unfold updateTestExecKey, createSearchParams.
    cbn [xrayImportOptions searchParams with_searchParams with_importOptions].
    rewrite elements_correlation. right. apply In_correlation. left.
    split; [reflexivity|]. apply given_Some. cbn. auto. }
  split.
  - pose proof (import_requests (updateTestExecKey x k) data r) as Hq.
    cbv zeta in Hq. rewrite Es in Hq.
    eexists. split; [exact Hq|exact Hopt].
  - intros m url options Hin. apply import_request in Hin. cbv zeta in Hin.
    rewrite Es in Hin. destruct Hin as (_ & -> & ->).
    split; [reflexivity|exact Hopt].
Qed.

(** X10, an instance: a client with a descriptor, after the key
    EXEC-123. *)
Lemma import_after_updateTestExecKey_sample :
  "EXEC-123" <> "" /\
  exists options,
    requests
      (trace_of
         (import (updateTestExecKey (constructor cloud junit_descriptor) "EXEC-123")
            results_xml created))
    = [ Request POST "/import/execution/junit" options ] /\
    Got.body_of options = Some (Raw results_xml) /\
    exists ps,
      Got.searchParams_of options = Some ps /\ In ("testExecKey", "EXEC-123") ps.
Proof.
  assert (H : "EXEC-123" <> "") by discriminate.
  split; [exact H|].
  destruct (import_after_updateTestExecKey (constructor cloud junit_descriptor)
              "EXEC-123" results_xml created H) as (_ & _ & _ & Hq & _).
  exact Hq.
Defined.

(** ** Updating the key twice, and the other parameters *)

(** X11: on a client built by the constructor, [updateTestExecKey]
    changes no query parameter other than [testExecKey], overrides an
    earlier update, and touches neither the HTTP client nor the stored
    descriptor. *)
Theorem updateTestExecKey_other_parameters xo io cs k :
  let x := fst (run (constructor xo io) cs) in
  (forall k' v, k' <> "testExecKey" ->
     (In (k', v) (searchParams (updateTestExecKey x k)) <->
      In (k', v) (searchParams x))) /\
  (forall k0, updateTestExecKey (updateTestExecKey x k0) k = updateTestExecKey x k) /\
  gotClient (updateTestExecKey x k) = gotClient x /\
  testExecutionJson (xrayImportOptions (updateTestExecKey x k))
  = testExecutionJson (xrayImportOptions x).
Proof.
  cbv zeta. split; [|repeat split].
  intros k' v Hk'.
  destruct (run_consistent cs _ (constructor_consistent xo io)) as [_ Hs].
  rewrite Hs. unfold updateTestExecKey, createSearchParams.
  cbn [xrayImportOptions searchParams with_searchParams with_importOptions].
  rewrite !elements_correlation. cbn [In].
  rewrite !In_correlation.
  cbn [testExecKey testPlanKey testEnvironments revision fixVersion
       projectKey with_testExecKey].
  split; intros [H|[[E _]|H]]; auto; now contradiction Hk'.
Qed.

(** ** Shape of the query parameters *)

Lemma given_entry_length k s : (length (given_entry k s) <= 1)%nat.
Proof. unfold given_entry. destruct (given s); simpl; lia. Qed.

(** X12: the query parameters never repeat a name and have between one
    and six entries; [createSearchParams] is idempotent. *)
Theorem createSearchParams_keys x :
  let ps := searchParams (createSearchParams x) in
  NoDup (names ps) /\
  (1 <= length ps <= 6)%nat /\
  createSearchParams (createSearchParams x) = createSearchParams x.
Proof.
  cbv zeta.
  assert (Hps : searchParams (createSearchParams x)
                = ("projectKey", projectKey (xrayImportOptions x))
                  :: correlation (xrayImportOptions x)).
  { unfold createSearchParams. cbn [searchParams with_searchParams].
    apply elements_correlation. }
  rewrite Hps. split; [|split; [|reflexivity]].
  - unfold names. cbn [map fst]. constructor.
    + intros Hin. apply in_map_iff in Hin. destruct Hin as ([k v] & Hk & Hin).
      cbn in Hk. subst k. apply In_correlation in Hin.
      destruct Hin as [[E _]|[[E _]|[[E _]|[[E _]|[E _]]]]]; discriminate E.
    + apply correlation_keys_NoDup.
  - cbn [length]. unfold correlation. rewrite !length_app.
    pose proof (given_entry_length "testExecKey" (testExecKey (xrayImportOptions x))).
    pose proof (given_entry_length "testPlanKey" (testPlanKey (xrayImportOptions x))).
    pose proof (given_entry_length "testEnvironments"
                  (testEnvironments (xrayImportOptions x))).
    pose proof (given_entry_length "revision" (revision (xrayImportOptions x))).
    pose proof (given_entry_length "fixVersion" (fixVersion (xrayImportOptions x))).
    lia.
Qed.

(** ** When [updateTestExecJson] returns *)

Lemma project_part_Normal pk f :
  (exists f', project_part pk f = Normal f') <->
  absent_or_object f && absent_or_object (peek f "project") = true.
Proof.
  split.
  - intros [f' Hf].
    destruct (absent_or_object f && absent_or_object (peek f "project")) eqn:E;
      [reflexivity|].
    destruct (project_part_rejects pk f E) as [msg Hm]. congruence.
  - intros H. apply andb_prop in H. destruct H. now apply project_part_defined.
Qed.

Lemma put_prop_primitive v k x :
  is_object v = false -> exists msg, put_prop v k x = Throw (TypeError msg).
Proof. destruct v; simpl; try discriminate; eauto. Qed.

Lemma xray_part_Normal o x :
  (exists x', xray_part o x = Normal x') <->
  absent_or_object x || match correlation o with [] => true | _ => false end = true.
Proof.
  unfold xray_part. split.
  - intros [x' Hx]. apply put_all_nil_or_object in Hx.
    destruct Hx as [[-> _]|Ho]; [apply orb_true_r|].
    apply orb_true_iff. left. unfold absent_or_object, ensured in *.
    destruct (truthy x); [exact Ho|reflexivity].
  - intros H. apply orb_true_iff in H. destruct H as [H|H].
    + destruct (put_all_object (correlation o) _ (ensured_is_object _ H))
        as (x' & Hx & _). eauto.
    + destruct (correlation o); [|discriminate]. simpl. eauto.
Qed.

Lemma xray_part_error o x e :
  xray_part o x = Throw e -> exists msg, e = TypeError msg.
Proof.
  unfold xray_part. generalize (ensured x). intros v.
  destruct (correlation o) as [|[k s] es]; simpl; [discriminate|].
  destruct (is_object v) eqn:Ev.
  - destruct (put_all_object ((k, s) :: es) v Ev) as (v' & Hv & _).
    simpl in Hv. rewrite Hv. discriminate.
  - destruct (put_prop_primitive v k (JStr s) Ev) as [msg ->]. simpl.
    intros [= <-]. eauto.
Qed.

Lemma updateTestExecJson_outcome o d :
  (snd (updateTestExecJson o d) = Normal tt <-> mergeable o d = true) /\
  (mergeable o d = false ->
   exists msg, snd (updateTestExecJson o d) = Throw (TypeError msg)).
Proof.
  rewrite updateTestExecJson_run. unfold mergeable.
  pose proof (project_part_Normal (projectKey o) (own "fields" d)) as Hp.
  pose proof (xray_part_Normal o (own "xrayFields" d)) as Hx.
  destruct (project_part (projectKey o) (own "fields" d)) as [f|e] eqn:Ef.
  - assert (Hok : absent_or_object (own "fields" d)
                  && absent_or_object (peek (own "fields" d) "project") = true)
      by (apply Hp; eauto).
    rewrite Hok. cbn [andb]. cbv zeta.
    destruct (xray_part o (own "xrayFields" d)) as [x|e] eqn:Ex; cbn [snd].
    + assert (Hx' : absent_or_object (own "xrayFields" d)
                    || match correlation o with [] => true | _ => false end = true)
        by (apply Hx; eauto).
      rewrite Hx'. split; [tauto|discriminate].
    + destruct (xray_part_error _ _ _ Ex) as [msg ->]. split.
      * split; [discriminate|]. intros H. apply Hx in H. destruct H. discriminate.
      * eauto.
  - cbn [snd].
    destruct (absent_or_object (own "fields" d)
              && absent_or_object (peek (own "fields" d) "project")) eqn:E.
    + destruct (proj2 Hp eq_refl). discriminate.
    + destruct (project_part_rejects (projectKey o) _ E) as [msg Hm].
      rewrite Ef in Hm. injection Hm as ->. cbn [andb]. split.
      * split; discriminate.
      * eauto.
Qed.

(** X13: [updateTestExecJson] returns exactly when [fields] and
    [fields.project] are each absent, falsy or an object, and
    [xrayFields] is too unless no correlation field is to be written;
    otherwise it throws a TypeError. *)
Theorem updateTestExecJson_returns_iff o d :
  (snd (updateTestExecJson o d) = Normal tt <-> mergeable o d = true) /\
  (mergeable o d = false ->
   exists msg, snd (updateTestExecJson o d) = Throw (TypeError msg)).
Proof. exact (updateTestExecJson_outcome o d). Qed.

(** X13, an instance: [xrayFields] is a string and a plan key is to be
    written. *)
Lemma updateTestExecJson_returns_sample :
  mergeable junit_plan xrayFields_is_text = false /\
  exists msg,
    snd (updateTestExecJson junit_plan xrayFields_is_text) = Throw (TypeError msg).
Proof.
  split; [reflexivity|].
  apply (updateTestExecJson_returns_iff junit_plan xrayFields_is_text). reflexivity.
Defined.

(** ** A throw at [xrayFields] comes after the project key *)

Lemma merged_project_key o d f :
  project_part (projectKey o) (own "fields" d) = Normal f ->
  project_key_forced o (merged o d).
Proof.
  intros Hf. unfold project_key_forced. rewrite (merged_fields _ _ _ Hf).
  destruct (project_part_result _ _ _ Hf) as (H1 & H2 & H3 & _). auto.
Qed.

(** X14: when the merge fails at [xrayFields] (a truthy value that is no
    object, and a correlation field to write), the project key has
    already been overwritten and [xrayFields] is untouched; [import]
    then rejects with the TypeError before any request or log line, and
    the stored descriptor is the partly merged one. *)
Theorem updateTestExecJson_throws_after_project_key x d data r :
  let io := xrayImportOptions x in
  submission_of io = Multipart d ->
  absent_or_object (own "fields" d)
  && absent_or_object (peek (own "fields" d) "project") = true ->
  mergeable io d = false ->
  project_key_forced io (merged io d) /\
  own "xrayFields" (merged io d) = own "xrayFields" d /\
  (exists msg, result_of (import x data r) = Throw (TypeError msg)) /\
  trace_of (import x data r) = [] /\
  testExecutionJson (xrayImportOptions (client_of (import x data r)))
  = Some (merged io d).
Proof.
  cbv zeta. intros Es Hp Hm.
  destruct (proj2 (project_part_Normal (projectKey (xrayImportOptions x)) _) Hp)
    as [f Hf].
  split; [eapply merged_project_key; eauto|].
  destruct (proj2 (updateTestExecJson_outcome (xrayImportOptions x) d) Hm)
    as [msg Hmsg].
  split.
  - destruct (merged_xrayFields (xrayImportOptions x) d) as [H|H]; [exact H|].
    unfold merged in *. rewrite updateTestExecJson_run, Hf in Hmsg |- *.
    cbv zeta in *. rewrite H in Hmsg. discriminate Hmsg.
  - pose proof (import_outcome x data r) as Ho. cbv zeta in Ho.
    rewrite Es, Hmsg in Ho. destruct Ho as (-> & -> & ->).
    split; [eauto|]. split; reflexivity.
Qed.

(** X14, an instance. *)
Lemma updateTestExecJson_throws_sample :
  submission_of (with_testExecutionJson junit_plan (Some xrayFields_is_text))
  = Multipart xrayFields_is_text /\
  peek (peek (own "fields"
                (merged (with_testExecutionJson junit_plan (Some xrayFields_is_text))
                   xrayFields_is_text)) "project") "key" = JStr "PRJ" /\
  trace_of
    (import (constructor cloud
               (with_testExecutionJson junit_plan (Some xrayFields_is_text)))
       results_xml created) = [].
Proof.
  split; [reflexivity|].
  destruct (updateTestExecJson_throws_after_project_key
              (constructor cloud
                 (with_testExecutionJson junit_plan (Some xrayFields_is_text)))
              xrayFields_is_text results_xml created eq_refl eq_refl eq_refl)
    as ((_ & _ & Hk) & _ & _ & Ht & _).
  split; [exact Hk|exact Ht].
Defined.

(** ** The two JSON parts of the form *)

Lemma merged_returns_project_key o d :
  snd (updateTestExecJson o d) = Normal tt -> project_key_forced o (merged o d).
Proof.
  intros H. rewrite updateTestExecJson_run in H.
  destruct (project_part (projectKey o) (own "fields" d)) as [f|] eqn:Ef;
    [|discriminate H].
  eapply merged_project_key; eauto.
Qed.

(** X15: the form of a multipart request has the three parts [info],
    [results], [testInfo] in this order, with their content types and
    file names; [info] is the descriptor now stored in the client, and
    its [fields.project.key] is the project key that [testInfo]
    carries. *)
Theorem multipart_parts_agree x data r m url options parts :
  In (Request m url options) (trace_of (import x data r)) ->
  Got.body_of options = Some (Form parts) ->
  let pk := projectKey (xrayImportOptions x) in
  exists info,
    map name parts = ["info"; "results"; "testInfo"] /\
    map content parts =
      [ Stringified (JObj info); Decoded data;
        Stringified
          (JObj [("fields", JObj [("project", JObj [("key", JStr pk)])])]) ] /\
    map contentType parts = ["application/json"; "text/xml"; "application/json"] /\
    map filename parts = ["info.json"; "test.xml"; "testInfo.json"] /\
    map filepath parts = ["info.json"; "test.xml"; "testInfo.json"] /\
    peek (peek (own "fields" info) "project") "key" = JStr pk /\
    testExecutionJson (xrayImportOptions (client_of (import x data r))) = Some info.
Proof.
  intros Hin Hb. cbv zeta. pose proof (import_frame x data r) as Hfr.
  cbv zeta in Hfr. destruct Hfr as (_ & _ & _ & _ & _ & Hio).
  apply import_request in Hin. cbv zeta in Hin. destruct Hin as [_ Hin].
  destruct (submission_of (xrayImportOptions x)) as [d|].
  - destruct Hin as (Hu & _ & ->). unfold multipart_options in Hb.
    rewrite body_of_merge in Hb. cbn [fold_left] in Hb. injection Hb as <-.
    exists (merged (xrayImportOptions x) d). repeat split.
    + apply (merged_returns_project_key (xrayImportOptions x) d). now rewrite Hu.
    + now rewrite Hio.
  - destruct Hin as (_ & ->). unfold raw_options in Hb.
    rewrite body_of_merge in Hb. cbn [fold_left] in Hb. discriminate Hb.
Qed.

(** X15, an instance. *)
Lemma multipart_parts_agree_sample :
  In (Request POST "/import/execution/junit/multipart"
        (multipart_options (constructor cloud junit_descriptor)
           (merged junit_descriptor other_project) results_xml))
     (trace_of (import (constructor cloud junit_descriptor) results_xml created)) /\
  exists info parts,
    Got.body_of
      (multipart_options (constructor cloud junit_descriptor)
         (merged junit_descriptor other_project) results_xml) = Some (Form parts) /\
    map name parts = ["info"; "results"; "testInfo"] /\
    peek (peek (own "fields" info) "project") "key" = JStr "PRJ".
Proof.
  assert (H : In (Request POST "/import/execution/junit/multipart"
        (multipart_options (constructor cloud junit_descriptor)
           (merged junit_descriptor other_project) results_xml))
     (trace_of (import (constructor cloud junit_descriptor) results_xml created))).
  { right. left. reflexivity. }
  split; [exact H|].
  destruct (multipart_parts_agree _ _ _ _ _ _ _ H eq_refl)
    as (info & Hn & _ & _ & _ & _ & Hk & _).
  exists info. eexists. split; [reflexivity|]. split; [exact Hn|exact Hk].
Defined.

(** ** Members are never removed or reordered *)

Lemma names_assign {A} k (v : A) ps :
  names (assign k v ps) =
  (names ps ++ match lookup k ps with Some _ => [] | None => [k] end)%list.
Proof.
  unfold names. induction ps as [|[k' v'] ps IH]; simpl; [reflexivity|].
  destruct (String.eqb k k') eqn:E; simpl.
  - apply String.eqb_eq in E. subst k'. now rewrite app_nil_r.
  - now rewrite IH.
Qed.

Lemma extends_by_refl added ns : extends_by added ns ns.
Proof. exists []. split; [now rewrite app_nil_r|intros ? []]. Qed.

Lemma extends_by_trans added a b c :
  extends_by added a b -> extends_by added b c -> extends_by added a c.
Proof.
  intros (m1 & -> & H1) (m2 & -> & H2). exists (m1 ++ m2)%list.
  split; [now rewrite app_assoc|]. now apply incl_app.
Qed.

Lemma extends_by_incl added added' a b :
  incl added added' -> extends_by added a b -> extends_by added' a b.
Proof. intros Hi (m & -> & H). exists m. split; [reflexivity|]. eapply incl_tran; eauto. Qed.

Lemma extends_by_assign k v (ps : members) :
  extends_by [k] (names ps) (names (assign k v ps)).
Proof.
  rewrite names_assign. eexists. split; [reflexivity|].
  destruct (lookup k ps); [intros ? []|apply incl_refl].
Qed.

Lemma extends_by_put_prop v k x v' :
  put_prop v k x = Normal v' -> extends_by [k] (names (props v)) (names (props v')).
Proof.
  intros H. rewrite (put_prop_props _ _ _ _ H). apply extends_by_assign.
Qed.

Lemma extends_by_put_all es : forall v v',
  put_all es v = Normal v' ->
  extends_by (names es) (names (props v)) (names (props v')).
Proof.
  induction es as [|[k s] es IH]; intros v v'; simpl.
  - intros [= <-]. apply extends_by_refl.
  - destruct (put_prop v k (JStr s)) as [v1|] eqn:E; [|discriminate]. simpl.
    intros H. eapply extends_by_trans.
    + eapply extends_by_incl; [|eapply extends_by_put_prop; eauto].
      intros n0 [<-|[]]. now left.
    + eapply extends_by_incl; [|eapply IH; eauto]. intros n0 Hn0. now right.
Qed.

Lemma project_part_names pk f f' :
  project_part pk f = Normal f' ->
  extends_by ["project"] (names (props f)) (names (props f')) /\
  extends_by ["key"] (names (props (peek f "project")))
    (names (props (peek f' "project"))).
Proof.
  intros H. unfold project_part in H.
  destruct (get_prop (ensured f) "project") as [p|] eqn:Ep; [|discriminate].
  simpl in H.
  destruct (put_prop (ensured p) "key" (JStr pk)) as [p'|] eqn:Ek; [|discriminate].
  simpl in H.
  assert (Hp : p = peek f "project").
  { rewrite <- (peek_ensured f).
    destruct (ensured f); simpl in Ep; try discriminate;
      injection Ep as <-; reflexivity. }
  split.
  - rewrite <- (props_ensured f). eapply extends_by_put_prop; eauto.
  - unfold peek at 2. rewrite (put_prop_props _ _ _ _ H), own_assign_same.
    rewrite <- Hp, <- (props_ensured p). eapply extends_by_put_prop; eauto.
Qed.

(** X16: [updateTestExecJson] never removes or reorders a member: the
    names at top level, in [fields], in [fields.project] and in
    [xrayFields] stay in their order, followed by the names it had to
    add ([fields] and [xrayFields]; [project]; [key]; the non-empty
    correlation fields), also when it throws. *)
Theorem updateTestExecJson_keeps_members o d :
  let d' := merged o d in
  extends_by ["fields"; "xrayFields"] (names d) (names d') /\
  extends_by ["project"] (names (props (own "fields" d)))
    (names (props (own "fields" d'))) /\
  extends_by ["key"] (names (props (peek (own "fields" d) "project")))
    (names (props (peek (own "fields" d') "project"))) /\
  extends_by (names (correlation o)) (names (props (own "xrayFields" d)))
    (names (props (own "xrayFields" d'))).
Proof.
  cbv zeta.
  assert (Hx : extends_by (names (correlation o))
                 (names (props (own "xrayFields" d)))
                 (names (props (own "xrayFields" (merged o d))))).
  { destruct (merged_xrayFields o d) as [->|H]; [apply extends_by_refl|].
    unfold xray_part in H. rewrite <- (props_ensured (own "xrayFields" d)).
    now apply extends_by_put_all. }
  destruct (project_part (projectKey o) (own "fields" d)) as [f|e] eqn:Ef.
  - rewrite (merged_fields _ _ _ Ef).
    destruct (project_part_names _ _ _ Ef) as [H1 H2].
    repeat split; auto.
    unfold merged. rewrite updateTestExecJson_run, Ef. cbv zeta.
    destruct (xray_part o (own "xrayFields" d)); cbn [fst].
    + eapply extends_by_trans.
      * eapply extends_by_incl; [|apply extends_by_assign].
        intros n0 [<-|[]]. now left.
      * eapply extends_by_incl; [|apply extends_by_assign].
        intros n0 [<-|[]]. right. now left.
    + eapply extends_by_incl; [|apply extends_by_assign].
      intros n0 [<-|[]]. now left.
  - rewrite (merged_unchanged _ _ _ Ef).
    repeat split; auto using extends_by_refl.
Qed.

(** ** Secrets *)

Lemma run_app x cs cs' :
  run x (cs ++ cs') =
  (fst (run (fst (run x cs)) cs'), (snd (run x cs) ++ snd (run (fst (run x cs)) cs'))%list).
Proof.
  revert x. induction cs as [|c cs IH]; intros x; cbn [app run fst snd].
  - now destruct (run x cs').
  - destruct (step x c) as [x' t]. rewrite IH.
    destruct (run x' cs) as [x'' t']. cbn [fst snd]. now rewrite app_assoc.
Qed.

Lemma run_xrayOptions cs : forall x, xrayOptions (fst (run x cs)) = xrayOptions x.
Proof.
  induction cs as [|c cs IH]; intros x; cbn [run]; [reflexivity|].
  pose proof (step_xrayOptions x c) as Hs. destruct (step x c) as [x' t].
  specialize (IH x'). destruct (run x' cs) as [x'' t']. cbn [fst] in *. congruence.
Qed.

(** X17: along any sequence of calls on a client built by the
    constructor, the secrets registered are exactly the tokens that
    [auth] received in cloud mode. *)
Theorem secrets_are_tokens xo io cs s :
  In (CoreSetSecret s) (snd (run (constructor xo io) cs)) <->
  xrayServer xo = false /\ In (Auth (Responded s)) cs.
Proof.
  split.
  - intros Hin. destruct (run_event _ _ _ Hin) as (b & c & rest & -> & He).
    apply step_events in He. destruct c as [r|data r|k]; [| |contradiction].
    + rewrite auth_trace, run_xrayOptions, constructor_xrayOptions in He.
      destruct (xrayServer xo).
      * destruct He as [He|[]]. discriminate He.
      * destruct He as [He|He]; [discriminate He|].
        destruct r; [|contradiction]. destruct He as [[= ->]|[]].
        split; [reflexivity|]. apply in_app_iff. right. now left.
    + exfalso. revert He. apply import_no_secret.
  - intros [Hs Hin]. apply in_split in Hin. destruct Hin as (b & rest & ->).
    rewrite run_app. cbn [snd]. apply in_app_iff. right.
    cbn [run step].
    pose proof (auth_trace (fst (run (constructor xo io) b)) (Responded s)) as Ht.
    rewrite run_xrayOptions, constructor_xrayOptions, Hs in Ht.
    unfold trace_of in Ht.
    destruct (auth (fst (run (constructor xo io) b)) (Responded s)) as [[x' t] res].
    cbn [fst snd] in Ht. subst t.
    destruct (run x' rest) as [x'' t']. cbn [snd].
    right. left. reflexivity.
Qed.
